(** * Business-case generator: financial formulas, JSON clean-up and
      route error handling

    A shallow embedding of the TypeScript sources of the business-case
    generator (Next.js API routes and the React form/preview components)
    together with the properties stated about them.

    Modelling conventions.

    - A JavaScript [number] is modelled twice.  The routes, the form and
      the charts are embedded over exact rationals ([Q]): every finite
      double is a rational, a division whose divisor is zero is [None], and
      the rounding error of IEEE-754 arithmetic is left out.  This model
      carries the properties of structure, of control flow and of order,
      which do not depend on the last bit of a result.  The numeric
      functions are embedded a second time over the primitive binary64
      floats (module [Binary64]), operation for operation; that model
      carries the properties about the value of a projection or of a
      metric, where a rounding error can change the rounded result.
    - A JavaScript string is a [string] (positions and lengths are those of
      its characters; the only characters the code searches for are the two
      ASCII braces).
    - [try]/[catch] is modelled in the error monad [sum exn] of ExtLib:
      [throw] is its [raise] and [try_catch] its [catch].
    - The outside world (the chat-completion endpoint, [JSON.parse], the
      document libraries) is a parameter of the model. *)

From Stdlib Require Import ZArith QArith Qround Qpower List String Ascii Bool Lia.
From Stdlib Require Import DecimalString Lqa.
From Stdlib Require Floats.PrimFloat Floats.FloatOps Floats.SpecFloat.
From Stdlib Require Numbers.Cyclic.Int63.Uint63.
From ExtLib Require Import Structures.Monad Structures.MonadExc Data.Monads.EitherMonad.
Import ListNotations.

#[local] Set Warnings "-inexact-float".

Local Open Scope Q_scope.

(** ** JavaScript numbers *)

Abbreviation number := Q.

(** [Math.round]: the nearest integer, ties towards plus infinity. *)
Definition Math_round (x : number) : number :=
  inject_Z (Qfloor (x + (1 # 2))).

(** [Math.pow] at the integer exponents the code uses (loop indices). *)
Definition Math_pow (x : number) (n : Z) : number := x ^ n.

(** [Math.ceil]. *)
Definition Math_ceil (x : number) : number := inject_Z (Qceiling x).

(** [a / b]; [None] stands for the non-finite result of a zero divisor. *)
Definition js_div (a b : number) : option number :=
  if Qeq_bool b 0 then None else Some (a / b).

Definition Qlt_bool (a b : number) : bool := negb (Qle_bool b a).

(** [l.reduce((acc, x, i) => f acc x i, init)]: a left fold that also passes
    the index of the element. *)
Fixpoint reduce_from {A B : Type} (f : B -> A -> Z -> B)
    (i : Z) (l : list A) (acc : B) : B :=
  match l with
  | [] => acc
  | x :: rest => reduce_from f (i + 1)%Z rest (f acc x i)
  end.

Definition reduce {A B : Type} (f : B -> A -> Z -> B) (l : list A) (init : B)
    : B :=
  reduce_from f 0%Z l init.

(** The values [first, first+1, ...] ([count] of them) that the counter of a
    counting [for] loop takes. *)
Definition for_range (first : Z) (count : nat) : list Z :=
  map (fun k => (first + Z.of_nat k)%Z) (seq 0 count).

(** ** Exceptions *)

(** A thrown value: an [Error] object with its [message], or anything else
    (for which [instanceof Error] is false). *)
Inductive exn : Type :=
| JsError (message : string)
| NonError.

(** Computations that may throw. *)
Abbreviation throws := (sum exn).

(** [throw e]. *)
Definition throw {A : Type} (e : exn) : throws A := raise e.

(** [try { body } catch (e) { handler e }]. *)
Definition try_catch {A : Type} (body : throws A) (handler : exn -> throws A)
    : throws A :=
  catch body handler.

Definition message_or (e : exn) (fallback : string) : string :=
  match e with
  | JsError message => message
  | NonError => fallback
  end.

Import MonadNotation.
Local Open Scope monad_scope.

(** ** JavaScript strings *)

Local Open Scope string_scope.

(** [text.indexOf(ch)] for a one-character search string, counting from
    position [i] of the original string. *)
Fixpoint indexOf_from (text : string) (ch : ascii) (i : Z) : Z :=
  match text with
  | EmptyString => (-1)%Z
  | String a rest =>
      if Ascii.eqb a ch then i else indexOf_from rest ch (i + 1)%Z
  end.

Definition indexOf (text : string) (ch : ascii) : Z := indexOf_from text ch 0.

(** [text.lastIndexOf(ch)]. *)
Fixpoint lastIndexOf_from (text : string) (ch : ascii) (i : Z) : Z :=
  match text with
  | EmptyString => (-1)%Z
  | String a rest =>
      let later := lastIndexOf_from rest ch (i + 1)%Z in
      if (later =? -1)%Z
      then (if Ascii.eqb a ch then i else (-1)%Z)
      else later
  end.

Definition lastIndexOf (text : string) (ch : ascii) : Z :=
  lastIndexOf_from text ch 0.

(** [text.slice(start, end)]: negative indices count from the end, both are
    clamped to the string, and an empty range gives the empty string. *)
Definition slice_index (len k : Z) : Z :=
  if (k <? 0)%Z then Z.max (len + k) 0 else Z.min k len.

Definition slice (text : string) (start end_ : Z) : string :=
  let len := Z.of_nat (String.length text) in
  let from := slice_index len start in
  let to := slice_index len end_ in
  substring (Z.to_nat from) (Z.to_nat (Z.max (to - from) 0)) text.

(** [s.replace(/\\n/g, '\n')]: every backslash followed by [n] becomes a
    line feed. *)
Definition backslash : ascii := Ascii.ascii_of_nat 92.
Definition line_feed : ascii := Ascii.ascii_of_nat 10.

Fixpoint replace_escaped_newlines (s : string) : string :=
  match s with
  | EmptyString => EmptyString
  | String a rest =>
      match rest with
      | String b rest' =>
          if Ascii.eqb a backslash && Ascii.eqb b "n"%char
          then String line_feed (replace_escaped_newlines rest')
          else String a (replace_escaped_newlines rest)
      | EmptyString => String a EmptyString
      end
  end.

(** ** JSON values *)

#[local] Unset Elimination Schemes.
Inductive json : Type :=
| JNull
| JBool (b : bool)
| JNumber (n : number)
| JString (s : string)
| JArray (items : list json)
| JObject (members : list (string * json)).
#[local] Set Elimination Schemes.

(** [obj[key]] on the members of an object; [None] is [undefined]. *)
Fixpoint member (key : string) (members : list (string * json))
    : option json :=
  match members with
  | [] => None
  | (k, v) :: rest => if String.eqb k key then Some v else member key rest
  end.

(** [obj[key] = v]: an existing member keeps its place, a new one goes
    last. *)
Fixpoint set_member (key : string) (v : json)
    (members : list (string * json)) : list (string * json) :=
  match members with
  | [] => [(key, v)]
  | (k, w) :: rest =>
      if String.eqb k key then (k, v) :: rest
      else (k, w) :: set_member key v rest
  end.

(** Truthiness of a value read from a parsed object ([undefined] is
    falsy). *)
Definition truthy (v : option json) : bool :=
  match v with
  | None | Some JNull => false
  | Some (JBool b) => b
  | Some (JNumber n) => negb (Qeq_bool n 0)
  | Some (JString s) => negb (String.eqb s "")
  | Some (JArray _) | Some (JObject _) => true
  end.

Definition Array_isArray (v : option json) : bool :=
  match v with
  | Some (JArray _) => true
  | _ => false
  end.

(** A number as [JSON.stringify] writes it: a non-finite number becomes
    [null]. *)
Definition json_of_number (x : option number) : json :=
  match x with
  | Some n => JNumber n
  | None => JNull
  end.

(** ** HTTP requests and responses *)

Module Request.
  (** [json] is the outcome of [await req.json()], which rejects when the
      body is not JSON. *)
Record t : Type := mk { json : throws json }.
End Request.

Inductive body : Type :=
| Json (value : json)           (* [JSON.stringify(value)] *)
| Binary (data : list Byte.byte).

Module Response.
Record t : Type := mk
  { status : Z;
    headers : list (string * string);
    content : body }.
End Response.

(** Whether the JSON body of a response is an object with member [key]. *)
Definition has_field (key : string) (r : Response.t) : bool :=
  match Response.content r with
  | Json (JObject members) =>
      match member key members with Some _ => true | None => false end
  | _ => false
  end.

(** ** Yearly projection entries *)

Module Projection.
Record t : Type := mk
  { year : number;
    revenue : number;
    customers : number;
    opex : number }.
End Projection.

(** ** [src/app/api/generate-report/route.ts] *)

Module GenerateReport.

(** The argument object of [calculateFinancialProjections]. *)
Module ProjectionInput.
Record t : Type := mk
  { initialCount : number;
    growthRate : number;
    arpu : number;
    opex : number }.
End ProjectionInput.

(** The mutable locals of the projection loop: [customers], [opex] and
    the array [projections] that [push] extends at its end. *)
Module Loop.
Record t : Type := mk
  { customers : number;
    opex : number;
    projections : list Projection.t }.
End Loop.

(** One iteration of [for (let year = 1; year <= 5; year++)]. *)
Definition projection_step (data : ProjectionInput.t)
    (st : Loop.t) (year : Z) : Loop.t :=
  let revenue := Loop.customers st * ProjectionInput.arpu data * 12 in
  {| Loop.projections :=
       Loop.projections st ++
         [ {| Projection.year := inject_Z year;
              Projection.revenue := Math_round revenue;
              Projection.customers := Math_round (Loop.customers st);
              Projection.opex := Math_round (Loop.opex st) |} ];
     Loop.customers :=
       Loop.customers st * (1 + ProjectionInput.growthRate data);
     Loop.opex := Loop.opex st * (11 # 10) |}.

(** The locals before the loop. *)
Definition loop_init (data : ProjectionInput.t) : Loop.t :=
  {| Loop.customers := ProjectionInput.initialCount data;
     Loop.opex := ProjectionInput.opex data;
     Loop.projections := [] |}.

Definition calculateFinancialProjections (data : ProjectionInput.t)
    : list Projection.t :=
  Loop.projections
    (fold_left (projection_step data) (for_range 1 5) (loop_init data)).

Module FinancialMetrics.
Record t : Type := mk
  { npv : number;
    irr : option number;
    paybackPeriod : number;
    roi : option number }.
End FinancialMetrics.

Definition discountRate : number := 1 # 10.

Definition cashFlow (p : Projection.t) : number :=
  Projection.revenue p - Projection.opex p.

(** The payback loop: [i] is the loop index, the other two arguments the
    locals [cumulativeCashFlow] and [paybackPeriod]; [break] ends it. *)
Fixpoint payback_loop (projections : list Projection.t) (i : Z)
    (cumulativeCashFlow paybackPeriod : number) : number :=
  match projections with
  | [] => paybackPeriod
  | p :: rest =>
      let cumulativeCashFlow := cumulativeCashFlow + cashFlow p in
      if Qlt_bool 0 cumulativeCashFlow && Qeq_bool paybackPeriod 0
      then inject_Z (i + 1)
      else payback_loop rest (i + 1)%Z cumulativeCashFlow paybackPeriod
  end.

Definition calculateFinancialMetrics (projections : list Projection.t)
    (capex : number) : FinancialMetrics.t :=
  (* cash flows, with the initial investment put in front *)
  let cashFlows := (- capex) :: map cashFlow projections in
  (* the divisor (1 + discountRate)^i is never zero *)
  let npv :=
    reduce (fun acc cf i => acc + cf / Math_pow (1 + discountRate) i)
           cashFlows 0 in
  let totalRevenue :=
    fold_left (fun acc p => acc + Projection.revenue p) projections 0 in
  let totalOpex :=
    fold_left (fun acc p => acc + Projection.opex p) projections 0 in
  let roi :=
    option_map (fun q => q * 100)
               (js_div (totalRevenue - totalOpex - capex) capex) in
  let irr :=
    option_map (fun q => q * 100)
               (js_div (totalRevenue - totalOpex - capex) (capex * 5)) in
  let paybackPeriod := payback_loop projections 0 (- capex) 0 in
  {| FinancialMetrics.npv := Math_round npv;
     FinancialMetrics.irr := option_map Math_round irr;
     FinancialMetrics.paybackPeriod := paybackPeriod;
     FinancialMetrics.roi := option_map Math_round roi |}.

  (** *** Cleaning and parsing the model's replies *)

Definition no_json_found : exn :=
  JsError "No valid JSON object found in response".

Definition cleanJsonResponse (text : string) : throws string :=
  let startIndex := indexOf text "{"%char in
  let endIndex := lastIndexOf text "}"%char in
  if (startIndex =? -1)%Z || (endIndex =? -1)%Z
  then throw no_json_found
  else ret (slice text startIndex (endIndex + 1)).

(** The validated request data. *)
Module Financials.
Record t : Type := mk
  { totalCost : number; capex : number; opex : number }.
End Financials.

Module Customers.
Record t : Type := mk
  { initialCount : number; growthRate : number; arpu : number }.
End Customers.

Module BusinessCaseData.
Record t : Type := mk
  { projectName : string;
    company : string;
    country : string;
    industry : string;
    financials : Financials.t;
    customers : Customers.t }.
End BusinessCaseData.

(** The risk record [generateRiskAnalysis] returns. *)
Module RiskAnalysis.
Record t : Type := mk
  { risks : string;
    impactAssessment : string;
    mitigationStrategies : string;
    contingencyPlans : string;
    riskMonitoringApproach : string }.
End RiskAnalysis.

(** What awaiting [openai.chat.completions.create] and reading
    [choices[0].message.content] gives: a rejection, or the content, which
    may be [null]. *)
Abbreviation completion := (throws (option string)).

(** The three completions one request asks for. *)
Module Completions.
Record t : Type := mk
  { market : completion;
    risk : completion;
    report : completion }.
End Completions.

(** [content || fallback] on a nullable string: [null] and the empty
    string are falsy. *)
Definition or_else (content : option string) (fallback : string) : string :=
  match content with
  | Some s => if String.eqb s "" then fallback else s
  | None => fallback
  end.

(** The two fixed records of [generateRiskAnalysis]; the line breaks inside
    the literals are the line feeds of the source strings. *)
Definition basic_risk_fallback : RiskAnalysis.t :=
  {| RiskAnalysis.risks := "• Market Risk
• Financial Risk
• Operational Risk
• Technical Risk
• Regulatory Risk";
       RiskAnalysis.impactAssessment := "• High Impact Risks
• Medium Impact Risks
• Low Impact Risks";
       RiskAnalysis.mitigationStrategies := "• Risk mitigation strategy 1
• Risk mitigation strategy 2
• Risk mitigation strategy 3";
       RiskAnalysis.contingencyPlans := "• Contingency plan 1
• Contingency plan 2
• Contingency plan 3";
       RiskAnalysis.riskMonitoringApproach := "• Regular monitoring
• KPI tracking
• Periodic reviews" |}.

Definition parse_risk_fallback : RiskAnalysis.t :=
  {| RiskAnalysis.risks := "• Market Risk: Potential market volatility
• Financial Risk: Investment uncertainty
• Operational Risk: Process inefficiencies
• Technical Risk: Implementation challenges
• Regulatory Risk: Compliance requirements";
       RiskAnalysis.impactAssessment := "• High Impact Risks:
- Market volatility (High)
- Financial uncertainty (High)

• Medium Impact Risks:
- Operational inefficiencies (Medium)

• Low Impact Risks:
- Minor technical issues (Low)";
       RiskAnalysis.mitigationStrategies := "• Diversification of market approach
• Strong financial controls
• Regular operational reviews
• Technical redundancy measures
• Compliance monitoring";
       RiskAnalysis.contingencyPlans := "• Market backup strategies
• Financial reserves allocation
• Operational backup procedures
• Technical fallback solutions
• Regulatory compliance plans";
       RiskAnalysis.riskMonitoringApproach := "• Weekly risk reviews
• Monthly KPI monitoring
• Quarterly assessments
• Annual strategic review" |}.

Definition requiredFields : list string :=
  ["risks"; "impactAssessment"; "mitigationStrategies"; "contingencyPlans";
   "riskMonitoringApproach"].

Definition json_of_projection (p : Projection.t) : json :=
  JObject [("year", JNumber (Projection.year p));
           ("revenue", JNumber (Projection.revenue p));
           ("customers", JNumber (Projection.customers p));
           ("opex", JNumber (Projection.opex p))].

Definition json_of_metrics (m : FinancialMetrics.t) : json :=
  JObject [("npv", JNumber (FinancialMetrics.npv m));
           ("irr", json_of_number (FinancialMetrics.irr m));
           ("paybackPeriod", JNumber (FinancialMetrics.paybackPeriod m));
           ("roi", json_of_number (FinancialMetrics.roi m))].

Definition json_of_risk (r : RiskAnalysis.t) : json :=
  JObject [("risks", JString (RiskAnalysis.risks r));
           ("impactAssessment", JString (RiskAnalysis.impactAssessment r));
           ("mitigationStrategies",
             JString (RiskAnalysis.mitigationStrategies r));
           ("contingencyPlans", JString (RiskAnalysis.contingencyPlans r));
           ("riskMonitoringApproach",
             JString (RiskAnalysis.riskMonitoringApproach r))].

(** The argument [POST] passes to [calculateFinancialProjections]: the
    submitted growth rate is a percentage. *)
Definition projection_input (validatedData : BusinessCaseData.t)
    : ProjectionInput.t :=
  let customers := BusinessCaseData.customers validatedData in
  let financials := BusinessCaseData.financials validatedData in
  {| ProjectionInput.initialCount := Customers.initialCount customers;
     ProjectionInput.growthRate := Customers.growthRate customers / 100;
     ProjectionInput.arpu := Customers.arpu customers;
     ProjectionInput.opex := Financials.opex financials |}.

Definition json_headers : list (string * string) :=
  [("Content-Type", "application/json")].

Section Route.

(** Library primitives the route relies on: [JSON.parse] (which throws a
    [SyntaxError] on malformed text), the decimal rendering of a number, the
    text of a [ZodError] for a rejected body and the engine's text of a
    [TypeError] raised on a value. *)
Variable JSON_parse : string -> throws json.
Variable Number_toString : number -> string.
Variable ZodError_message : json -> string.
Variable TypeError_message : option json -> string.

Definition as_string (v : option json) : option string :=
  match v with Some (JString s) => Some s | _ => None end.

Definition as_number (v : option json) : option number :=
  match v with Some (JNumber n) => Some n | _ => None end.

Definition as_object (v : option json) : option (list (string * json)) :=
  match v with Some (JObject m) => Some m | _ => None end.

Definition parse_financials (v : option json) : option Financials.t :=
  match as_object v with
  | Some m =>
      match as_number (member "totalCost" m), as_number (member "capex" m),
            as_number (member "opex" m) with
      | Some t, Some c, Some o =>
          Some {| Financials.totalCost := t; Financials.capex := c;
                  Financials.opex := o |}
      | _, _, _ => None
      end
  | None => None
  end.

Definition parse_customers (v : option json) : option Customers.t :=
  match as_object v with
  | Some m =>
      match as_number (member "initialCount" m),
            as_number (member "growthRate" m), as_number (member "arpu" m) with
      | Some i, Some g, Some a =>
          Some {| Customers.initialCount := i; Customers.growthRate := g;
                  Customers.arpu := a |}
      | _, _, _ => None
      end
  | None => None
  end.

(** [businessCaseSchema.parse(body)]: four strings and two objects of three
    numbers each, with no further constraint; anything else throws. *)
Definition businessCaseSchema_parse (body : json)
    : throws BusinessCaseData.t :=
  let parsed :=
    match as_object (Some body) with
    | Some m =>
        match as_string (member "projectName" m),
              as_string (member "company" m),
              as_string (member "country" m),
              as_string (member "industry" m),
              parse_financials (member "financials" m),
              parse_customers (member "customers" m) with
        | Some pn, Some co, Some cn, Some ind, Some f, Some c =>
            Some {| BusinessCaseData.projectName := pn;
                    BusinessCaseData.company := co;
                    BusinessCaseData.country := cn;
                    BusinessCaseData.industry := ind;
                    BusinessCaseData.financials := f;
                    BusinessCaseData.customers := c |}
        | _, _, _, _, _, _ => None
        end
    | None => None
    end in
  match parsed with
  | Some data => ret data
  | None => throw (JsError (ZodError_message body))
  end.

(** [String(v)] on a parsed value. *)
Fixpoint js_String (v : json) : string :=
  match v with
  | JNull => "null"
  | JBool true => "true"
  | JBool false => "false"
  | JNumber n => Number_toString n
  | JString s => s
  | JArray items =>
      String.concat ","
        (map (fun item => match item with
                          | JNull => ""
                          | _ => js_String item
                          end) items)
  | JObject _ => "[object Object]"
  end.

Definition generateMarketAnalysis (marketResponse : completion)
    : throws json :=
  content <- marketResponse ;;
  cleaned <- cleanJsonResponse (or_else content "{}") ;;
  JSON_parse cleaned.

(** [field in parsedResponse]; the operator throws on a value that is not an
    object. *)
Definition field_in (field : string) (v : json) : throws bool :=
  match v with
  | JObject m =>
      ret (match member field m with Some _ => true | None => false end)
  | JArray _ => ret false
  | _ => throw (JsError (TypeError_message (Some v)))
  end.

Fixpoint check_required (fields : list string) (parsedResponse : json)
    : throws unit :=
  match fields with
  | [] => ret tt
  | field :: rest =>
      present <- field_in field parsedResponse ;;
      if (present : bool) then check_required rest parsedResponse
      else throw (JsError ("Missing required field: " ++ field))
  end.

(** [String(parsedResponse.field).replace(/\\n/g, '\n')]. *)
Definition risk_text (field : string) (parsedResponse : json) : string :=
  let v := match parsedResponse with
           | JObject m => member field m
           | _ => None
           end in
  replace_escaped_newlines
    (match v with Some j => js_String j | None => "undefined" end).

Definition generateRiskAnalysis (riskResponse : completion)
    : throws RiskAnalysis.t :=
  try_catch
    (content <- riskResponse ;;
     match content with
     | None => throw (JsError "Empty response from OpenAI")
     | Some content =>
         if String.eqb content ""
         then throw (JsError "Empty response from OpenAI")
         else
           try_catch
             (cleanedContent <- cleanJsonResponse content ;;
              parsedResponse <- JSON_parse cleanedContent ;;
              check_required requiredFields parsedResponse ;;
              ret {| RiskAnalysis.risks := risk_text "risks" parsedResponse;
                     RiskAnalysis.impactAssessment :=
                       risk_text "impactAssessment" parsedResponse;
                     RiskAnalysis.mitigationStrategies :=
                       risk_text "mitigationStrategies" parsedResponse;
                     RiskAnalysis.contingencyPlans :=
                       risk_text "contingencyPlans" parsedResponse;
                     RiskAnalysis.riskMonitoringApproach :=
                       risk_text "riskMonitoringApproach" parsedResponse |})
             (fun parseError => ret parse_risk_fallback)
     end)
    (fun error => ret basic_risk_fallback).

(** [parsedResult.financialAnalysis.metrics = financialMetrics] on the
    members of [parsedResult] (the module is strict-mode code): writing to
    [undefined], [null] or a primitive throws; a property written on an array
    is not serialised. *)
Definition set_metrics (metrics : json) (m : list (string * json))
    : throws (list (string * json)) :=
  match member "financialAnalysis" m with
  | Some (JObject fa) =>
      ret (set_member "financialAnalysis"
             (JObject (set_member "metrics" metrics fa)) m)
  | Some (JArray _) => ret m
  | other => throw (JsError (TypeError_message other))
  end.

(** The body of the inner [try] of [POST]: parse the report and overwrite
    the computed parts. *)
Definition assemble_report (result : string)
    (projections : list Projection.t) (financialMetrics : FinancialMetrics.t)
    (marketAnalysis : json) (riskAnalysis : RiskAnalysis.t)
    : throws Response.t :=
  cleanedResult <- cleanJsonResponse result ;;
  parsedResult <- JSON_parse cleanedResult ;;
  match parsedResult with
  | JObject m =>
      if negb (truthy (member "executiveSummary" m))
         || negb (Array_isArray (member "financialProjections" m))
      then throw (JsError "Invalid report structure")
      else
        let m := set_member "financialProjections"
                   (JArray (map json_of_projection projections)) m in
        m <- set_metrics (json_of_metrics financialMetrics) m ;;
        let m := set_member "marketAnalysis" marketAnalysis m in
        let m := set_member "riskAssessment" (json_of_risk riskAnalysis) m in
        ret {| Response.status := 200;
               Response.headers := json_headers;
               Response.content := Json (JObject m) |}
  | JNull => throw (JsError (TypeError_message (Some JNull)))
  | _ => throw (JsError "Invalid report structure")
  end.

(** The outer [try] block of [POST]. *)
Definition POST_try (req : Request.t) (llm : Completions.t)
    : throws Response.t :=
  body <- Request.json req ;;
  validatedData <- businessCaseSchema_parse body ;;
  let projections :=
    calculateFinancialProjections (projection_input validatedData) in
  let financialMetrics :=
    calculateFinancialMetrics projections
      (Financials.capex (BusinessCaseData.financials validatedData)) in
  (* [Promise.all] of the two analyses: it rejects when one of them does *)
  marketAnalysis <- generateMarketAnalysis (Completions.market llm) ;;
  riskAnalysis <- generateRiskAnalysis (Completions.risk llm) ;;
  result <- Completions.report llm ;;
  match result with
  | None => throw (JsError "No response from OpenAI")
  | Some result =>
      if String.eqb result ""
      then throw (JsError "No response from OpenAI")
      else
        try_catch
          (assemble_report result projections financialMetrics
             marketAnalysis riskAnalysis)
          (fun parseError =>
             throw (JsError
               ("Failed to parse OpenAI response as JSON. Error: "
                ++ message_or parseError "Unknown parsing error")))
  end.

(** The [catch] block of [POST]. *)
Definition POST_catch (error : exn) : Response.t :=
  {| Response.status := 500;
     Response.headers := json_headers;
     Response.content :=
       Json (JObject [("error", JString "Failed to generate report");
                      ("details",
                        JString (message_or error "Unknown error"))]) |}.

Definition POST (req : Request.t) (llm : Completions.t) : Response.t :=
  match POST_try req llm with
  | inr response => response
  | inl error => POST_catch error
  end.

End Route.

End GenerateReport.


(** ** The export routes, [src/app/api/export/pdf/route.ts] and
       [src/app/api/export/docx/route.ts]

    Both handlers have the same shape: read the JSON body, build the document
    with the document library, answer with the file; any exception ends in
    the [catch] block, whose answer carries a single [error] member. *)

Module ExportRoute.

Section Handler.

(** The document library at work on the request data ([jsPDF] or [docx]);
    it throws, for instance, on a report that lacks a section. *)
Variable render : json -> throws (list Byte.byte).

Variable contentType : string.
Variable fileName : string.
Variable failure : string.

Definition POST_try (req : Request.t) : throws Response.t :=
  data <- Request.json req ;;
  buffer <- render data ;;
  ret {| Response.status := 200;
         Response.headers :=
           [("Content-Type", contentType);
            ("Content-Disposition", "attachment; filename=" ++ fileName)];
         Response.content := Binary buffer |}.

(** [NextResponse.json({ error: failure }, { status: 500 })]. *)
Definition POST_catch (error : exn) : Response.t :=
  {| Response.status := 500;
     Response.headers := GenerateReport.json_headers;
     Response.content := Json (JObject [("error", JString failure)]) |}.

Definition POST (req : Request.t) : Response.t :=
  match POST_try req with
  | inr response => response
  | inl error => POST_catch error
  end.

End Handler.

(** The [try] blocks of the two routes. *)
Definition pdf_POST_try (render : json -> throws (list Byte.byte))
    : Request.t -> throws Response.t :=
  POST_try render "application/pdf" "business-case-report.pdf".

Definition docx_POST_try (render : json -> throws (list Byte.byte))
    : Request.t -> throws Response.t :=
  POST_try render
    "application/vnd.openxmlformats-officedocument.wordprocessingml.document"
    "business-case-report.docx".

Definition pdf_POST (render : json -> throws (list Byte.byte))
    : Request.t -> Response.t :=
  POST render "application/pdf" "business-case-report.pdf"
       "Failed to generate PDF".

Definition docx_POST (render : json -> throws (list Byte.byte))
    : Request.t -> Response.t :=
  POST render
       "application/vnd.openxmlformats-officedocument.wordprocessingml.document"
       "business-case-report.docx" "Failed to generate DOCX".

End ExportRoute.

(** ** [src/components/ReportPreview.tsx] *)

Module ReportPreview.

(** [financialProjections[i].opex]; reading [opex] of [undefined] throws. *)
Definition opex_at (financialProjections : list Projection.t) (i : nat)
    : throws number :=
  match nth_error financialProjections i with
  | Some p => ret (Projection.opex p)
  | None =>
      throw (JsError "Cannot read properties of undefined (reading 'opex')")
  end.

(** The data of the cost-breakdown pie chart (the source reads the first
    year's [opex] for the CAPEX slice as well). *)
Definition costBreakdown (financialProjections : list Projection.t)
    : throws (list (string * number)) :=
  capex <- opex_at financialProjections 0 ;;
  y1 <- opex_at financialProjections 0 ;;
  y2 <- opex_at financialProjections 1 ;;
  y3 <- opex_at financialProjections 2 ;;
  y4 <- opex_at financialProjections 3 ;;
  y5 <- opex_at financialProjections 4 ;;
  ret [("CAPEX", capex); ("Year 1 OPEX", y1); ("Year 2 OPEX", y2);
       ("Year 3 OPEX", y3); ("Year 4 OPEX", y4); ("Year 5 OPEX", y5)].

End ReportPreview.

(** ** The timeline-years variant of the generate-report route

    The same route in its later form, where the form asks for the project
    timeline in years instead of the total cost. *)

Module TimelineReport.

Module Financials.
Record t : Type := mk
  { projectTimelineYears : number; capex : number; opex : number }.
End Financials.

Module Customers.
Record t : Type := mk
  { initialCount : number; growthRate : number; arpu : number }.
End Customers.

Module BusinessCaseData.
Record t : Type := mk
  { projectName : string;
    company : string;
    country : string;
    industry : string;
    financials : Financials.t;
    customers : Customers.t }.
End BusinessCaseData.

(** [for (let year = 1; year <= years; year++)]: the integer counter stays
    below [years] for the first [floor years] values (none when
    [years < 1]); no local is carried from one iteration to the next. *)
Definition generateFinancialProjections (data : BusinessCaseData.t)
    : list Projection.t :=
  let financials := BusinessCaseData.financials data in
  let cust := BusinessCaseData.customers data in
  let years := Financials.projectTimelineYears financials in
  map (fun year : Z =>
         let customers :=
           Math_round
             (Customers.initialCount cust
              * Math_pow (1 + Customers.growthRate cust / 100) (year - 1)) in
         let revenue := customers * Customers.arpu cust * 12 in
         let opex := Financials.opex financials
                     * Math_pow (11 # 10) (year - 1) in
         {| Projection.year := inject_Z year;
            Projection.revenue := revenue;
            Projection.customers := customers;
            Projection.opex := opex |})
      (for_range 1 (Z.to_nat (Qfloor years))).

Module FinancialMetrics.
Record t : Type := mk
  { npv : number;
    roi : option number;
    paybackPeriod : number;
    breakEvenPoint : option number;
    cac : option number;
    clv : number;
    grossMargin : list (option number);
    operatingMargin : list (option number);
    ebitda : list (option number);
    workingCapital : list number }.
End FinancialMetrics.

Definition discountRate : number := 1 # 10.

Definition percent (q : option number) : option number :=
  option_map (fun x => x * 100) q.

(** The payback loop of this variant, over [cashFlows]. *)
Fixpoint payback_loop (cashFlows : list number) (i : Z)
    (cumulativeCashFlow paybackPeriod : number) : number :=
  match cashFlows with
  | [] => paybackPeriod
  | cf :: rest =>
      let cumulativeCashFlow := cumulativeCashFlow + cf in
      if Qle_bool 0 cumulativeCashFlow
      then inject_Z (i + 1)
      else payback_loop rest (i + 1)%Z cumulativeCashFlow paybackPeriod
  end.

Definition calculateFinancialMetrics (data : BusinessCaseData.t)
    (projections : list Projection.t) : throws FinancialMetrics.t :=
  let financials := BusinessCaseData.financials data in
  let cust := BusinessCaseData.customers data in
  let initialInvestment := Financials.capex financials in
  let cashFlows :=
    map (fun p => Projection.revenue p - Projection.opex p) projections in
  let npv :=
    reduce (fun acc cf index =>
              acc + cf / Math_pow (1 + discountRate) (index + 1))
           cashFlows (- initialInvestment) in
  let totalRevenue :=
    fold_left (fun sum p => sum + Projection.revenue p) projections 0 in
  let totalCosts :=
    initialInvestment
    + fold_left (fun sum p => sum + Projection.opex p) projections 0 in
  let roi := percent (js_div (totalRevenue - totalCosts) totalCosts) in
  let paybackPeriod :=
    payback_loop cashFlows 0 (- initialInvestment)
      (Financials.projectTimelineYears financials) in
  let averageRevenuePerCustomer := Customers.arpu cust * 12 in
  let firstYearOpex := Financials.opex financials in
  let breakEvenPoint :=
    option_map Math_ceil
      (js_div (firstYearOpex + initialInvestment) averageRevenuePerCustomer) in
  let marketingCost := firstYearOpex * (3 # 10) in
  (* [projections[0].customers] throws on an empty array *)
  firstYearCustomers <-
    match projections with
    | p :: _ => ret (Projection.customers p)
    | [] => throw (JsError
              "Cannot read properties of undefined (reading 'customers')")
    end ;;
  let cac := js_div marketingCost firstYearCustomers in
  let avgCustomerLifespan := 3 in
  let clv := averageRevenuePerCustomer * avgCustomerLifespan in
  let margin (cost : Projection.t -> number) (p : Projection.t) :=
    percent (js_div (Projection.revenue p - cost p) (Projection.revenue p)) in
  ret {| FinancialMetrics.npv := npv;
         FinancialMetrics.roi := roi;
         FinancialMetrics.paybackPeriod := paybackPeriod;
         FinancialMetrics.breakEvenPoint := breakEvenPoint;
         FinancialMetrics.cac := cac;
         FinancialMetrics.clv := clv;
         FinancialMetrics.grossMargin :=
           map (margin (fun p => Projection.opex p * (6 # 10))) projections;
         FinancialMetrics.operatingMargin :=
           map (margin Projection.opex) projections;
         FinancialMetrics.ebitda := map (margin Projection.opex) projections;
         FinancialMetrics.workingCapital :=
           map (fun p => Projection.revenue p * (2 # 10)) projections |}.

End TimelineReport.

(** ** The validation schema of [src/components/BusinessCaseForm.tsx] *)

Module BusinessCaseForm.

Import GenerateReport.

(** [z.string().min(n)]. *)
Definition string_min (n : nat) (s : string) : bool :=
  Nat.leb n (String.length s).

(** [z.number().min(m)] and [z.number().max(m)]. *)
Definition number_min (m x : number) : bool := Qle_bool m x.
Definition number_max (m x : number) : bool := Qle_bool x m.

Definition financials_schema (f : Financials.t) : bool :=
  number_min 0 (Financials.totalCost f)
  && number_min 0 (Financials.capex f)
  && number_min 0 (Financials.opex f)
  (* [.refine(data => data.totalCost >= data.capex + data.opex)] *)
  && Qle_bool (Financials.capex f + Financials.opex f) (Financials.totalCost f).

Definition customers_schema (c : Customers.t) : bool :=
  number_min 1 (Customers.initialCount c)
  && (number_min 0 (Customers.growthRate c)
      && number_max 100 (Customers.growthRate c))
  && number_min 0 (Customers.arpu c).

(** Whether [businessCaseSchema] accepts the record. *)
Definition businessCaseSchema (d : BusinessCaseData.t) : bool :=
  string_min 3 (BusinessCaseData.projectName d)
  && string_min 2 (BusinessCaseData.company d)
  && string_min 2 (BusinessCaseData.country d)
  && string_min 2 (BusinessCaseData.industry d)
  && financials_schema (BusinessCaseData.financials d)
  && customers_schema (BusinessCaseData.customers d).

End BusinessCaseForm.

(** ** The charts of [src/components/ReportPreview.tsx] *)

Module PreviewCharts.

(** The decimal digits of a non-negative integer. *)
Definition decimal (n : Z) : string :=
  NilZero.string_of_uint (N.to_uint (Z.to_N n)).

Module CashFlowPoint.
Record t : Type := mk { year : number; cumulative : number }.
End CashFlowPoint.

(** The reducer of [cumulativeCashFlow]: [acc[acc.length - 1]] exists
    whenever [acc.length > 0]. *)
Definition cumulative_step (acc : list CashFlowPoint.t)
    (projection : Projection.t) : list CashFlowPoint.t :=
  let previousValue :=
    if (0 <? List.length acc)%nat
    then match nth_error acc (List.length acc - 1) with
         | Some point => CashFlowPoint.cumulative point
         | None => 0
         end
    else 0 in
  let cashFlow := Projection.revenue projection - Projection.opex projection in
  acc ++ [ {| CashFlowPoint.year := Projection.year projection;
              CashFlowPoint.cumulative := previousValue + cashFlow |} ].

Definition cumulativeCashFlow (financialProjections : list Projection.t)
    : list CashFlowPoint.t :=
  fold_left cumulative_step financialProjections [].

Module Bar.
Record t : Type := mk
  { name : string;
    start : number;
    revenue : number;
    opex : number;
    profit : number;
    end_ : number;
    fill : string }.
End Bar.

Section Formatting.

(** [value.toString()], also the text a template literal puts for a
    number. *)
Variable Number_toString : number -> string.

(** [x.toFixed(1)]: the sign, then the integer [n] nearest to [10 x] (the
    larger one on a tie) with a point before its last digit; from [10^21] on
    the number is printed as [toString] does. *)
Definition toFixed1 (x : number) : string :=
  let s := if Qlt_bool x 0 then "-" else "" in
  let x := if Qlt_bool x 0 then - x else x in
  let m :=
    if Qle_bool (inject_Z (10 ^ 21)) x then Number_toString x
    else
      let n := Qfloor (x * 10 + (1 # 2)) in
      decimal (n / 10) ++ "." ++ decimal (n mod 10) in
  s ++ m.

Definition formatNumber (value : number) : string :=
  if Qle_bool 1000000 value then toFixed1 (value / 1000000) ++ "M"
  else if Qle_bool 1000 value then toFixed1 (value / 1000) ++ "K"
  else Number_toString value.

Definition formatCurrency (value : number) : string :=
  if Qle_bool 1000000 value then "$" ++ toFixed1 (value / 1000000) ++ "M"
  else if Qle_bool 1000 value then "$" ++ toFixed1 (value / 1000) ++ "K"
  else "$" ++ Number_toString value.

(** The reducer of [WaterfallChart]; reading [end] of a missing
    [acc[index - 1]] would throw. *)
Definition waterfall_step (acc : throws (list Bar.t)) (curr : Projection.t)
    (index : Z) : throws (list Bar.t) :=
  acc <- acc ;;
  previousEnd <-
    (if (0 <? index)%Z
     then match nth_error acc (Z.to_nat (index - 1)) with
          | Some bar => ret (Bar.end_ bar)
          | None =>
              throw (JsError
                "Cannot read properties of undefined (reading 'end')")
          end
     else ret 0) ;;
  let revenue := Projection.revenue curr in
  let opex := Projection.opex curr in
  let profit := revenue - opex in
  ret (acc ++
       [ {| Bar.name := "Year " ++ Number_toString (Projection.year curr);
            Bar.start := previousEnd;
            Bar.revenue := revenue;
            Bar.opex := - opex;
            Bar.profit := profit;
            Bar.end_ := previousEnd + profit;
            Bar.fill := if Qle_bool 0 profit then "#82ca9d" else "#ff7373" |} ])%list.

Definition waterfallData (data : list Projection.t) : throws (list Bar.t) :=
  reduce waterfall_step data (ret []).

End Formatting.

End PreviewCharts.

(** ** The form of [src/components/BusinessCaseForm.tsx]: progress, currency
       input and the request it sends *)

Module FormState.

Import GenerateReport.

(** A value [isFieldFilled] may be given. *)
#[local] Unset Elimination Schemes.
Inductive value : Type :=
| Undefined
| Null
| Num (n : number)
| Text (s : string)
| Obj (values : list value)
| Other.
#[local] Set Elimination Schemes.

(** What [getValues()] returns: the four texts are [undefined] until they
    are typed, the numbers start at 0. *)
Module Values.
Record t : Type := mk
  { projectName : option string;
    company : option string;
    country : option string;
    industry : option string;
    financials : Financials.t;
    customers : Customers.t }.
End Values.

Definition text_value (s : option string) : value :=
  match s with Some s => Text s | None => Undefined end.

Section Progress.

(** [s.trim() === ''] (whether the text is only white space). *)
Variable is_blank : string -> bool.

Fixpoint isFieldFilled (v : value) : bool :=
  match v with
  | Undefined | Null => false
  | Num n => negb (Qeq_bool n 0)
  | Text s => negb (is_blank s)
  | Obj values => existsb isFieldFilled values
  | Other => false
  end.

(** One pass of [forEach]: [totalFields++] and, when the field is filled,
    [filledFields++]. *)
Definition count_fields (fields : list value) (counters : Z * Z) : Z * Z :=
  fold_left
    (fun '(totalFields, filledFields) field =>
       ((totalFields + 1)%Z,
        if isFieldFilled field then (filledFields + 1)%Z else filledFields))
    fields counters.

Definition formProgress (formData : Values.t) : number :=
  let f := Values.financials formData in
  let c := Values.customers formData in
  let counters := (0%Z, 0%Z) in
  let counters :=
    count_fields [text_value (Values.projectName formData);
                  text_value (Values.company formData);
                  text_value (Values.country formData);
                  text_value (Values.industry formData)] counters in
  let counters :=
    count_fields [Num (Financials.totalCost f); Num (Financials.capex f);
                  Num (Financials.opex f)] counters in
  let counters :=
    count_fields [Num (Customers.initialCount c);
                  Num (Customers.growthRate c);
                  Num (Customers.arpu c)] counters in
  let '(totalFields, filledFields) := counters in
  (* [totalFields] is 10 here, never 0 *)
  Math_round (inject_Z filledFields / inject_Z totalFields * 100).

End Progress.

(** The form values of a validated record. *)
Definition values_of (d : BusinessCaseData.t) : Values.t :=
  {| Values.projectName := Some (BusinessCaseData.projectName d);
     Values.company := Some (BusinessCaseData.company d);
     Values.country := Some (BusinessCaseData.country d);
     Values.industry := Some (BusinessCaseData.industry d);
     Values.financials := BusinessCaseData.financials d;
     Values.customers := BusinessCaseData.customers d |}.

(** The ten fields the progress bar counts. *)
Definition counted_fields (formData : Values.t) : list value :=
  let f := Values.financials formData in
  let c := Values.customers formData in
  [text_value (Values.projectName formData);
   text_value (Values.company formData);
   text_value (Values.country formData);
   text_value (Values.industry formData);
   Num (Financials.totalCost f); Num (Financials.capex f);
   Num (Financials.opex f);
   Num (Customers.initialCount c); Num (Customers.growthRate c);
   Num (Customers.arpu c)].





End FormState.

(** ** The other validation schemas *)

(** The earlier version of the form's schema (the second [BusinessCaseForm]
    of [src/components/BusinessCaseForm.tsx]): minimum lengths and
    [min(0)] only. *)
Module EarlierForm.

Import GenerateReport.

Definition businessCaseSchema (d : BusinessCaseData.t) : bool :=
  let f := BusinessCaseData.financials d in
  let c := BusinessCaseData.customers d in
  BusinessCaseForm.string_min 3 (BusinessCaseData.projectName d)
  && BusinessCaseForm.string_min 2 (BusinessCaseData.company d)
  && BusinessCaseForm.string_min 2 (BusinessCaseData.country d)
  && BusinessCaseForm.string_min 2 (BusinessCaseData.industry d)
  && (BusinessCaseForm.number_min 0 (Financials.totalCost f)
      && BusinessCaseForm.number_min 0 (Financials.capex f)
      && BusinessCaseForm.number_min 0 (Financials.opex f))
  && (BusinessCaseForm.number_min 0 (Customers.initialCount c)
      && BusinessCaseForm.number_min 0 (Customers.growthRate c)
      && BusinessCaseForm.number_min 0 (Customers.arpu c)).

End EarlierForm.

(** The schema of the form that asks for the project timeline (the form
    that goes with the timeline variant of the route). *)
Module TimelineForm.

Import TimelineReport.

(** [z.enum(['gpt4', 'deepseek'])]. *)
Definition llmProvider_schema (llmProvider : string) : bool :=
  String.eqb llmProvider "gpt4" || String.eqb llmProvider "deepseek".

Definition financials_schema (f : Financials.t) : bool :=
  (BusinessCaseForm.number_min 1 (Financials.projectTimelineYears f)
   && BusinessCaseForm.number_max 10 (Financials.projectTimelineYears f))
  && BusinessCaseForm.number_min 0 (Financials.capex f)
  && BusinessCaseForm.number_min 0 (Financials.opex f).

Definition customers_schema (c : Customers.t) : bool :=
  BusinessCaseForm.number_min 1 (Customers.initialCount c)
  && (BusinessCaseForm.number_min 0 (Customers.growthRate c)
      && BusinessCaseForm.number_max 100 (Customers.growthRate c))
  && BusinessCaseForm.number_min 0 (Customers.arpu c).

Definition businessCaseSchema (llmProvider : string) (d : BusinessCaseData.t)
    : bool :=
  BusinessCaseForm.string_min 3 (BusinessCaseData.projectName d)
  && BusinessCaseForm.string_min 2 (BusinessCaseData.company d)
  && BusinessCaseForm.string_min 2 (BusinessCaseData.country d)
  && BusinessCaseForm.string_min 2 (BusinessCaseData.industry d)
  && llmProvider_schema llmProvider
  && financials_schema (BusinessCaseData.financials d)
  && customers_schema (BusinessCaseData.customers d).

End TimelineForm.

(** * The arithmetic of the routes in IEEE-754 doubles

    The rational model above is exact, the code is not: every sum, product
    and quotient of a JavaScript [number] is rounded to the nearest binary64
    value, and a rounding error can move a result across the half that
    [Math.round] cuts at.  This module embeds the numeric functions a second
    time over the primitive binary64 floats, operation for operation as the
    source writes them, for the properties that depend on the value of a
    result.  [Math.pow], whose results the language leaves to the engine, is
    a parameter. *)

Module Binary64.

Import PrimFloat.
Local Open Scope float_scope.
#[local] Set Warnings "-inexact-float".

(** A JavaScript [number]. *)
Abbreviation number := float.

(** The number of a loop counter (exact below [2^53]). *)
Definition of_Z (z : Z) : number :=
  match z with
  | Z0 => 0
  | Zpos _ => of_uint63 (Uint63.of_Z z)
  | Zneg p => - of_uint63 (Uint63.of_Z (Zpos p))
  end.

(** The rational a finite number stands for: [(-1)^s * m * 2^e]. *)
Definition exact (x : number) : option Q :=
  match FloatOps.Prim2SF x with
  | SpecFloat.S754_zero _ => Some 0%Q
  | SpecFloat.S754_finite s m e =>
      Some (inject_Z (if s then Zneg m else Zpos m) * 2 ^ e)%Q
  | _ => None
  end.

(** [Math.round]: the nearest integer, ties towards plus infinity, computed
    on the exact value [n / d] of the argument (no [x + 0.5] is formed, whose
    own rounding would be wrong just below one half); an argument without
    fraction bits, an infinity or NaN is returned as it is, and a result of
    zero keeps the sign of the argument. *)
Definition Math_round (x : number) : number :=
  match FloatOps.Prim2SF x with
  | SpecFloat.S754_finite s m e =>
      if (0 <=? e)%Z then x
      else
        let d := (2 ^ (- e))%Z in
        let n := if s then Zneg m else Zpos m in
        let z := ((2 * n + d) / (2 * d))%Z in
        if (z =? 0)%Z then (if s then neg_zero else zero) else of_Z z
  | _ => x
  end.

(** [Math.ceil], in the same way. *)
Definition Math_ceil (x : number) : number :=
  match FloatOps.Prim2SF x with
  | SpecFloat.S754_finite s m e =>
      if (0 <=? e)%Z then x
      else
        let d := (2 ^ (- e))%Z in
        let n := if s then Zneg m else Zpos m in
        let z := (- ((- n) / d))%Z in
        if (z =? 0)%Z then (if s then neg_zero else zero) else of_Z z
  | _ => x
  end.

Module Projection.
Record t : Type := mk
  { year : number;
    revenue : number;
    customers : number;
    opex : number }.
End Projection.

(** ** [src/app/api/generate-report/route.ts] *)

Module GenerateReport.

Module ProjectionInput.
Record t : Type := mk
  { initialCount : number;
    growthRate : number;
    arpu : number;
    opex : number }.
End ProjectionInput.

Module Loop.
Record t : Type := mk
  { customers : number;
    opex : number;
    projections : list Projection.t }.
End Loop.

(** One iteration of [for (let year = 1; year <= 5; year++)]:
    [customers * data.arpu * 12] is two products, [customers *= (1 +
    data.growthRate)] a sum and a product, [opex *= 1.1] a product by the
    double nearest to 1.1. *)
Definition projection_step (data : ProjectionInput.t)
    (st : Loop.t) (year : Z) : Loop.t :=
  let revenue := Loop.customers st * ProjectionInput.arpu data * 12 in
  {| Loop.projections :=
       Loop.projections st ++
         [ {| Projection.year := of_Z year;
              Projection.revenue := Math_round revenue;
              Projection.customers := Math_round (Loop.customers st);
              Projection.opex := Math_round (Loop.opex st) |} ];
     Loop.customers :=
       Loop.customers st * (1 + ProjectionInput.growthRate data);
     Loop.opex := Loop.opex st * 1.1 |}.

Definition loop_init (data : ProjectionInput.t) : Loop.t :=
  {| Loop.customers := ProjectionInput.initialCount data;
     Loop.opex := ProjectionInput.opex data;
     Loop.projections := [] |}.

Definition calculateFinancialProjections (data : ProjectionInput.t)
    : list Projection.t :=
  Loop.projections
    (fold_left (projection_step data) (for_range 1 5) (loop_init data)).

(** The validated request, as far as the arithmetic reads it. *)
Module Financials.
Record t : Type := mk
  { totalCost : number; capex : number; opex : number }.
End Financials.

Module Customers.
Record t : Type := mk
  { initialCount : number; growthRate : number; arpu : number }.
End Customers.

Module BusinessCaseData.
Record t : Type := mk
  { projectName : string;
    company : string;
    country : string;
    industry : string;
    financials : Financials.t;
    customers : Customers.t }.
End BusinessCaseData.

(** The argument [POST] builds: the growth percentage divided by 100. *)
Definition projection_input (validatedData : BusinessCaseData.t)
    : ProjectionInput.t :=
  let c := BusinessCaseData.customers validatedData in
  {| ProjectionInput.initialCount := Customers.initialCount c;
     ProjectionInput.growthRate := Customers.growthRate c / 100;
     ProjectionInput.arpu := Customers.arpu c;
     ProjectionInput.opex :=
       Financials.opex (BusinessCaseData.financials validatedData) |}.

Module FinancialMetrics.
Record t : Type := mk
  { npv : number;
    irr : number;
    paybackPeriod : number;
    roi : number }.
End FinancialMetrics.

Definition discountRate : number := 0.1.

Definition cashFlow (p : Projection.t) : number :=
  Projection.revenue p - Projection.opex p.

Fixpoint payback_loop (projections : list Projection.t) (i : Z)
    (cumulativeCashFlow paybackPeriod : number) : number :=
  match projections with
  | [] => paybackPeriod
  | p :: rest =>
      let cumulativeCashFlow := cumulativeCashFlow + cashFlow p in
      if (0 <? cumulativeCashFlow) && (paybackPeriod =? 0)
      then of_Z (i + 1)
      else payback_loop rest (i + 1)%Z cumulativeCashFlow paybackPeriod
  end.

Section Metrics.

(** [Math.pow]. *)
Variable Math_pow : number -> number -> number.

Definition calculateFinancialMetrics (projections : list Projection.t)
    (capex : number) : FinancialMetrics.t :=
  let cashFlows := (- capex) :: map cashFlow projections in
  let npv :=
    reduce (fun acc cf i => acc + cf / Math_pow (1 + discountRate) (of_Z i))
           cashFlows 0 in
  let totalRevenue :=
    fold_left (fun acc p => acc + Projection.revenue p) projections 0 in
  let totalOpex :=
    fold_left (fun acc p => acc + Projection.opex p) projections 0 in
  let roi := ((totalRevenue - totalOpex - capex) / capex) * 100 in
  let irr := (totalRevenue - totalOpex - capex) / (capex * 5) * 100 in
  let paybackPeriod := payback_loop projections 0 (- capex) 0 in
  {| FinancialMetrics.npv := Math_round npv;
     FinancialMetrics.irr := Math_round irr;
     FinancialMetrics.paybackPeriod := paybackPeriod;
     FinancialMetrics.roi := Math_round roi |}.

End Metrics.

End GenerateReport.

(** ** [src/unnamed/part_003]: the metrics of the timeline variant *)

Module TimelineReport.

Module Financials.
Record t : Type := mk
  { projectTimelineYears : number; capex : number; opex : number }.
End Financials.

Module Customers.
Record t : Type := mk
  { initialCount : number; growthRate : number; arpu : number }.
End Customers.

Module BusinessCaseData.
Record t : Type := mk
  { projectName : string;
    company : string;
    country : string;
    industry : string;
    financials : Financials.t;
    customers : Customers.t }.
End BusinessCaseData.

Module FinancialMetrics.
Record t : Type := mk
  { npv : number;
    roi : number;
    paybackPeriod : number;
    breakEvenPoint : number;
    cac : number;
    clv : number;
    grossMargin : list number;
    operatingMargin : list number;
    ebitda : list number;
    workingCapital : list number }.
End FinancialMetrics.

Definition discountRate : number := 0.1.

(** The payback loop of this variant, over [cashFlows]; a NaN balance fails
    the test [cumulativeCashFlow >= 0] like a negative one. *)
Fixpoint payback_loop (cashFlows : list number) (i : Z)
    (cumulativeCashFlow paybackPeriod : number) : number :=
  match cashFlows with
  | [] => paybackPeriod
  | cf :: rest =>
      let cumulativeCashFlow := cumulativeCashFlow + cf in
      if 0 <=? cumulativeCashFlow
      then of_Z (i + 1)
      else payback_loop rest (i + 1)%Z cumulativeCashFlow paybackPeriod
  end.

Section Metrics.

Variable Math_pow : number -> number -> number.

Definition calculateFinancialMetrics (data : BusinessCaseData.t)
    (projections : list Projection.t) : throws FinancialMetrics.t :=
  let financials := BusinessCaseData.financials data in
  let cust := BusinessCaseData.customers data in
  let initialInvestment := Financials.capex financials in
  let cashFlows :=
    map (fun p => Projection.revenue p - Projection.opex p) projections in
  let npv :=
    reduce (fun acc cf index =>
              acc + cf / Math_pow (1 + discountRate) (of_Z (index + 1)))
           cashFlows (- initialInvestment) in
  let totalRevenue :=
    fold_left (fun sum p => sum + Projection.revenue p) projections 0 in
  let totalCosts :=
    initialInvestment
    + fold_left (fun sum p => sum + Projection.opex p) projections 0 in
  let roi := ((totalRevenue - totalCosts) / totalCosts) * 100 in
  let paybackPeriod :=
    payback_loop cashFlows 0 (- initialInvestment)
      (Financials.projectTimelineYears financials) in
  let averageRevenuePerCustomer := Customers.arpu cust * 12 in
  let firstYearOpex := Financials.opex financials in
  let breakEvenPoint :=
    Math_ceil ((firstYearOpex + initialInvestment)
               / averageRevenuePerCustomer) in
  let marketingCost := firstYearOpex * 0.3 in
  (* [projections[0].customers] throws on an empty array *)
  firstYearCustomers <-
    match projections with
    | p :: _ => ret (Projection.customers p)
    | [] => throw (JsError
              "Cannot read properties of undefined (reading 'customers')")
    end ;;
  let cac := marketingCost / firstYearCustomers in
  let avgCustomerLifespan := 3 in
  let clv := averageRevenuePerCustomer * avgCustomerLifespan in
  ret {| FinancialMetrics.npv := npv;
         FinancialMetrics.roi := roi;
         FinancialMetrics.paybackPeriod := paybackPeriod;
         FinancialMetrics.breakEvenPoint := breakEvenPoint;
         FinancialMetrics.cac := cac;
         FinancialMetrics.clv := clv;
         FinancialMetrics.grossMargin :=
           map (fun p => ((Projection.revenue p - Projection.opex p * 0.6)
                          / Projection.revenue p) * 100) projections;
         FinancialMetrics.operatingMargin :=
           map (fun p => ((Projection.revenue p - Projection.opex p)
                          / Projection.revenue p) * 100) projections;
         FinancialMetrics.ebitda :=
           map (fun p => ((Projection.revenue p - Projection.opex p)
                          / Projection.revenue p) * 100) projections;
         FinancialMetrics.workingCapital :=
           map (fun p => Projection.revenue p * 0.2) projections |}.

End Metrics.

End TimelineReport.

(** ** What the loops compute, position by position *)

Module Formula.

(** [x] multiplied [k] times by [factor], one rounded product after the
    other, in the order of the loop. *)
Fixpoint compounded (x factor : number) (k : nat) : number :=
  match k with
  | O => x
  | S k' => compounded x factor k' * factor
  end.

(** The entry at position [i] (year [i + 1]). *)
Definition projected (data : GenerateReport.ProjectionInput.t) (i : nat)
    : Projection.t :=
  let customers :=
    compounded (GenerateReport.ProjectionInput.initialCount data)
               (1 + GenerateReport.ProjectionInput.growthRate data) i in
  {| Projection.year := of_Z (1 + Z.of_nat i);
     Projection.revenue :=
       Math_round (customers * GenerateReport.ProjectionInput.arpu data * 12);
     Projection.customers := Math_round customers;
     Projection.opex :=
       Math_round
         (compounded (GenerateReport.ProjectionInput.opex data) 1.1 i) |}.

(** The balance after [k] years: the investment paid, then the first [k]
    cash flows added one after the other. *)
Definition balance (capex : number) (cashFlows : list number) (k : nat)
    : number :=
  fold_left add (firstn k cashFlows) (- capex).

End Formula.

(** ** Sample inputs *)

Module Sample.

(** 50 customers growing 13% a year at 25 per month each. *)
Definition thirteenPercent : GenerateReport.BusinessCaseData.t :=
  {| GenerateReport.BusinessCaseData.projectName := "Fibre rollout";
     GenerateReport.BusinessCaseData.company := "Acme";
     GenerateReport.BusinessCaseData.country := "Egypt";
     GenerateReport.BusinessCaseData.industry := "Telecom";
     GenerateReport.BusinessCaseData.financials :=
       {| GenerateReport.Financials.totalCost := 25000;
          GenerateReport.Financials.capex := 5000;
          GenerateReport.Financials.opex := 1000 |};
     GenerateReport.BusinessCaseData.customers :=
       {| GenerateReport.Customers.initialCount := 50;
          GenerateReport.Customers.growthRate := 13;
          GenerateReport.Customers.arpu := 25 |} |}.

(** Yearly costs of 392 126 453 078 to start with. *)
Definition largeOpex : GenerateReport.ProjectionInput.t :=
  {| GenerateReport.ProjectionInput.initialCount := 100;
     GenerateReport.ProjectionInput.growthRate := 0.1;
     GenerateReport.ProjectionInput.arpu := 5;
     GenerateReport.ProjectionInput.opex := 392126453078 |}.

(** Five yearly entries with a revenue in the first year only and no
    costs. *)
Definition firstYearOnly (revenue : number) : list Projection.t :=
  {| Projection.year := 1; Projection.revenue := revenue;
     Projection.customers := 1; Projection.opex := 0 |}
  :: map (fun year =>
            {| Projection.year := of_Z year; Projection.revenue := 0;
               Projection.customers := 1; Projection.opex := 0 |})
         (for_range 2 4).

(** A stand-in for [Math.pow] at the whole exponents 0 to 10: 1 at exponent
    0 and the base at exponent 1, which is what every engine returns, and
    the rounded products [((x * x) * x) ...] above, where engines may differ
    in the last bit. *)
Fixpoint power (x : number) (n : nat) : number :=
  match n with
  | O => 1
  | S O => x
  | S k => power x k * x
  end.

Definition Math_pow (x y : number) : number :=
  match find (fun n => y =? of_Z (Z.of_nat n)) (seq 0 11) with
  | Some n => power x n
  | None => nan
  end.

(** A timeline case: 3890 invested, a revenue of 2400 a year, costs of 1000
    growing 10% a year as the variant stores them (unrounded). *)
Definition timelineData : TimelineReport.BusinessCaseData.t :=
  {| TimelineReport.BusinessCaseData.projectName := "Fibre rollout";
     TimelineReport.BusinessCaseData.company := "Acme";
     TimelineReport.BusinessCaseData.country := "Egypt";
     TimelineReport.BusinessCaseData.industry := "Telecom";
     TimelineReport.BusinessCaseData.financials :=
       {| TimelineReport.Financials.projectTimelineYears := 5;
          TimelineReport.Financials.capex := 3890;
          TimelineReport.Financials.opex := 1000 |};
     TimelineReport.BusinessCaseData.customers :=
       {| TimelineReport.Customers.initialCount := 100;
          TimelineReport.Customers.growthRate := 0;
          TimelineReport.Customers.arpu := 2 |} |}.

Definition timelineProjections : list Projection.t :=
  map (fun year =>
         {| Projection.year := of_Z year;
            Projection.revenue := 100 * 2 * 12;
            Projection.customers := 100;
            Projection.opex := 1000 * Math_pow 1.1 (of_Z (year - 1)) |})
      (for_range 1 5).

End Sample.

End Binary64.

(** ** Reference quantities for the further properties *)

Module Reference.


(** The balance after [k] years: the investment paid, the first [k] cash
    flows received. *)
Definition balance (capex : number) (cashFlows : list number) (k : nat)
    : number :=
  fold_left Qplus (firstn k cashFlows) (- capex).

(** The sum of the cash flows (revenue minus opex) of the first [k]
    projected years. *)
Definition cash_until (projections : list Projection.t) (k : nat) : number :=
  fold_left (fun sum p => sum + (Projection.revenue p - Projection.opex p))
            (firstn k projections) 0.

(** The text has a backslash directly followed by [n]. *)
Fixpoint has_escaped_newline (s : string) : bool :=
  match s with
  | EmptyString => false
  | String a rest =>
      match rest with
      | String b _ =>
          (Ascii.eqb a backslash && Ascii.eqb b "n"%char)
          || has_escaped_newline rest
      | EmptyString => false
      end
  end.

(** What the bars of the waterfall chart built so far say about the
    projections done so far: each bar starts at the cash cumulated before
    its year, ends at the cash cumulated with it, and is green exactly when
    the year's profit is not negative. *)
Definition bars_match (done : list Projection.t)
    (bars : list PreviewCharts.Bar.t) : Prop :=
  List.length bars = List.length done
  /\ forall (k : nat) (p : Projection.t),
       nth_error done k = Some p ->
       exists bar : PreviewCharts.Bar.t,
         nth_error bars k = Some bar
         /\ PreviewCharts.Bar.start bar = cash_until done k
         /\ PreviewCharts.Bar.end_ bar = cash_until done (S k)
         /\ PreviewCharts.Bar.profit bar
            = Projection.revenue p - Projection.opex p
         /\ (PreviewCharts.Bar.fill bar = "#82ca9d" <->
             0 <= Projection.revenue p - Projection.opex p).

End Reference.

(** ** The formulas of the specification *)

Module Formula.

Import GenerateReport.

(** The entry the closed formulas give for the year at position [i] of the
    array (year [i + 1]): customers [c (1+g)^i], revenue
    [c (1+g)^i * arpu * 12], operating expenditure [opex0 * 1.1^i], each
    rounded. *)
Definition projected (data : ProjectionInput.t) (i : nat) : Projection.t :=
  let n := Z.of_nat i in
  let growth := (1 + ProjectionInput.growthRate data) ^ n in
  {| Projection.year := inject_Z (1 + n);
     Projection.revenue :=
       Math_round (ProjectionInput.initialCount data * growth
                   * ProjectionInput.arpu data * 12);
     Projection.customers :=
       Math_round (ProjectionInput.initialCount data * growth);
     Projection.opex :=
       Math_round (ProjectionInput.opex data * (11 # 10) ^ n) |}.

(** Discounted cash flow: [sum over t = first, first+1, ... of
    cf_t / (1.1)^t]. *)
Fixpoint discounted (first : Z) (cashFlows : list number) : number :=
  match cashFlows with
  | [] => 0
  | cf :: rest => cf / (11 # 10) ^ first + discounted (first + 1) rest
  end.

(** The string contains the character. *)
Definition contains (text : string) (ch : ascii) : Prop :=
  exists i : nat, String.get i text = Some ch.

(** Position [i] is the first, respectively the last, occurrence of the
    character. *)
Definition first_at (text : string) (ch : ascii) (i : nat) : Prop :=
  String.get i text = Some ch
  /\ forall k : nat, (k < i)%nat -> String.get k text <> Some ch.

Definition last_at (text : string) (ch : ascii) (j : nat) : Prop :=
  String.get j text = Some ch
  /\ forall k : nat, (j < k)%nat -> String.get k text <> Some ch.

(** The constraints the specification names for the form: every numeric
    field non-negative, every string field of its minimum length. *)
Definition nonneg_and_min_lengths (d : BusinessCaseData.t) : bool :=
  let f := BusinessCaseData.financials d in
  let c := BusinessCaseData.customers d in
  Nat.leb 3 (String.length (BusinessCaseData.projectName d))
  && Nat.leb 2 (String.length (BusinessCaseData.company d))
  && Nat.leb 2 (String.length (BusinessCaseData.country d))
  && Nat.leb 2 (String.length (BusinessCaseData.industry d))
  && Qle_bool 0 (Financials.totalCost f)
  && Qle_bool 0 (Financials.capex f)
  && Qle_bool 0 (Financials.opex f)
  && Qle_bool 0 (Customers.initialCount c)
  && Qle_bool 0 (Customers.growthRate c)
  && Qle_bool 0 (Customers.arpu c).

End Formula.

(** ** Sample inputs *)

Module Sample.

Import GenerateReport.

(** A submitted business case: 100 customers growing 10% a year at 5 per
    month each, costs of 1000 a year after an investment of 5000. *)
Definition validatedData : BusinessCaseData.t :=
  {| BusinessCaseData.projectName := "Fibre rollout";
     BusinessCaseData.company := "Acme";
     BusinessCaseData.country := "Egypt";
     BusinessCaseData.industry := "Telecom";
     BusinessCaseData.financials :=
       {| Financials.totalCost := 25000; Financials.capex := 5000;
          Financials.opex := 1000 |};
     BusinessCaseData.customers :=
       {| Customers.initialCount := 100; Customers.growthRate := 10;
          Customers.arpu := 5 |} |}.


(** The same business case as the timeline variant receives it, over five
    years. *)
Definition timelineData : TimelineReport.BusinessCaseData.t :=
  {| TimelineReport.BusinessCaseData.projectName := "Fibre rollout";
     TimelineReport.BusinessCaseData.company := "Acme";
     TimelineReport.BusinessCaseData.country := "Egypt";
     TimelineReport.BusinessCaseData.industry := "Telecom";
     TimelineReport.BusinessCaseData.financials :=
       {| TimelineReport.Financials.projectTimelineYears := 5;
          TimelineReport.Financials.capex := 5000;
          TimelineReport.Financials.opex := 1000 |};
     TimelineReport.BusinessCaseData.customers :=
       {| TimelineReport.Customers.initialCount := 100;
          TimelineReport.Customers.growthRate := 10;
          TimelineReport.Customers.arpu := 5 |} |}.




(** The request body of [validatedData]. *)
Definition body : json :=
  JObject
    [("projectName", JString "Fibre rollout");
     ("company", JString "Acme");
     ("country", JString "Egypt");
     ("industry", JString "Telecom");
     ("financials",
       JObject [("totalCost", JNumber 25000); ("capex", JNumber 5000);
                ("opex", JNumber 1000)]);
     ("customers",
       JObject [("initialCount", JNumber 100); ("growthRate", JNumber 10);
                ("arpu", JNumber 5)])].

Definition request : Request.t := {| Request.json := inr body |}.

(** A request whose body is cut short, so that [req.json()] rejects. *)
Definition truncatedRequest : Request.t :=
  {| Request.json := inl (JsError "Unexpected end of JSON input") |}.

(** A request with the empty object for a report. *)
Definition emptyReportRequest : Request.t :=
  {| Request.json := inr (JObject []) |}.

(** Stand-ins for the library primitives, enough to run the sample
    requests: a [JSON.parse] that knows the empty object only (the malformed
    replies below have no braces and never reach it), and fixed texts where
    the library's wording does not matter. *)
Definition JSON_parse (text : string) : throws json :=
  if String.eqb text "{}" then inr (JObject [])
  else inl (JsError "Unexpected token in JSON").

Definition Number_toString (n : number) : string := "0".
Definition ZodError_message (body : json) : string := "Required".
Definition TypeError_message (v : option json) : string :=
  "Cannot set properties of undefined".

(** A document builder that, like the export routes, throws on a report
    without projections, and produces some file otherwise. *)
Definition render (data : json) : throws (list Byte.byte) :=
  match data with
  | JObject m =>
      match member "financialProjections" m with
      | Some _ => inr []
      | None =>
          inl (JsError "Cannot read properties of undefined (reading 'map')")
      end
  | _ => inl (JsError "Cannot read properties of undefined (reading 'map')")
  end.

(** Replies of the model without any JSON object in them. *)
Definition proseReply : completion := inr (Some "no object here").
Definition emptyObjectReply : completion := inr (Some "{}").

End Sample.

(** * Properties *)

Local Open Scope list_scope.

(** ** Numbers *)

Lemma Math_round_comp (x y : number) : x == y -> Math_round x = Math_round y.
Proof.
  intros E. unfold Math_round. f_equal. apply Qfloor_comp. rewrite E. reflexivity.
Qed.


Lemma Qpower_succ (a : Q) (k : nat) : a ^ Z.of_nat (S k) == a ^ Z.of_nat k * a.
Proof.
  rewrite Nat2Z.inj_succ. unfold Z.succ.
  rewrite Qpower_plus' by lia. reflexivity.
Qed.

Lemma for_range_succ (first : Z) (k : nat) :
  for_range first (S k) = for_range first k ++ [(first + Z.of_nat k)%Z].
Proof.
  unfold for_range. rewrite seq_S, map_app. reflexivity.
Qed.

Lemma for_range_length (first : Z) (k : nat) :
  List.length (for_range first k) = k.
Proof. unfold for_range. rewrite length_map, length_seq. reflexivity. Qed.

(** ** The projection loop *)

Section ProjectionLoop.

Import GenerateReport.

Variable data : ProjectionInput.t.

(** After [k] iterations the locals hold the compounded values and the array
    holds the first [k] entries of the closed formulas. *)
Lemma projection_loop_invariant (k : nat) :
  let st := fold_left (projection_step data) (for_range 1 k) (loop_init data) in
  Loop.customers st
    == ProjectionInput.initialCount data
       * (1 + ProjectionInput.growthRate data) ^ Z.of_nat k
  /\ Loop.opex st == ProjectionInput.opex data * (11 # 10) ^ Z.of_nat k
  /\ Loop.projections st = map (Formula.projected data) (seq 0 k).
Proof.
  induction k as [|k IH]; cbn zeta.
  - cbn. repeat split; ring.
  - rewrite for_range_succ, fold_left_app. cbn zeta in IH.
    destruct IH as (Hc & Ho & Hp). cbn [fold_left].
    set (st := fold_left (projection_step data) (for_range 1 k) _) in *.
    unfold projection_step; cbn [Loop.customers Loop.opex Loop.projections].
    repeat split.
    + rewrite Hc, Qpower_succ. ring.
    + rewrite Ho, Qpower_succ. ring.
    + rewrite Hp, seq_S, map_app. cbn [map Nat.add]. f_equal. f_equal.
      unfold Formula.projected. f_equal.
      * apply Math_round_comp. rewrite Hc. reflexivity.
      * apply Math_round_comp. exact Hc.
      * apply Math_round_comp. exact Ho.
Qed.

Lemma calculateFinancialProjections_closed :
  calculateFinancialProjections data = map (Formula.projected data) (seq 0 5).
Proof.
  unfold calculateFinancialProjections.
  exact (proj2 (proj2 (projection_loop_invariant 5))).
Qed.

End ProjectionLoop.

(** ** Projections: the closed formulas *)

Section Projections.

Import GenerateReport.

Lemma projected_nth (data : ProjectionInput.t) (i : nat) :
  (i < 5)%nat ->
  nth_error (calculateFinancialProjections data) i
  = Some (Formula.projected data i).
Proof.
  intros Hi. rewrite calculateFinancialProjections_closed.
  rewrite nth_error_map, nth_error_seq.
  destruct (Nat.ltb_spec i 5) as [_|]; [reflexivity | lia].
Qed.


(** C9. Whatever the input, [calculateFinancialProjections] returns exactly
    five entries, their [year] fields are 1, 2, 3, 4, 5 in this order, so
    every index from 0 to 4 is in bounds and the cost-breakdown construction
    of [ReportPreview], which reads positions 0 to 4, does not throw. *)
Theorem projections_five_years (data : ProjectionInput.t) :
  List.length (calculateFinancialProjections data) = 5%nat
  /\ map Projection.year (calculateFinancialProjections data) = [1; 2; 3; 4; 5]
  /\ (forall i : nat, (i < 5)%nat ->
        exists p, nth_error (calculateFinancialProjections data) i = Some p)
  /\ exists slices,
       ReportPreview.costBreakdown (calculateFinancialProjections data)
       = inr slices.
Proof.
  split; [|split; [|split]].
  - rewrite calculateFinancialProjections_closed, length_map, length_seq.
    reflexivity.
  - rewrite calculateFinancialProjections_closed. reflexivity.
  - intros i Hi. eexists. apply projected_nth. exact Hi.
  - unfold ReportPreview.costBreakdown, ReportPreview.opex_at.
    rewrite !projected_nth by lia. cbn. eexists. reflexivity.
Qed.

Lemma projections_five_years_witness :
  exists p,
    nth_error (calculateFinancialProjections
                 (projection_input Sample.validatedData)) 4 = Some p.
Proof.
  exact (proj1 (proj2 (proj2
           (projections_five_years (projection_input Sample.validatedData))))
           4%nat ltac:(lia)).
Defined.

Example sample_customers :
  map Projection.customers
      (calculateFinancialProjections (projection_input Sample.validatedData))
  = [100; 110; 121; 133; 146].
Proof. reflexivity. Qed.

Example sample_revenue :
  map Projection.revenue
      (calculateFinancialProjections (projection_input Sample.validatedData))
  = [6000; 6600; 7260; 7986; 8785].
Proof. reflexivity. Qed.

Example sample_opex :
  map Projection.opex
      (calculateFinancialProjections (projection_input Sample.validatedData))
  = [1000; 1100; 1210; 1331; 1464].
Proof. reflexivity. Qed.







End Projections.

(** ** Financial metrics *)

Section Metrics.

Import GenerateReport.

(** The [reduce] of [calculateFinancialMetrics] adds to its accumulator the
    cash flows discounted from the index it starts at. *)
Lemma npv_reduce (cashFlows : list number) (i : Z) (acc : number) :
  reduce_from (fun acc cf i => acc + cf / Math_pow (1 + discountRate) i)
              i cashFlows acc
  == acc + Formula.discounted i cashFlows.
Proof.
  revert i acc. induction cashFlows as [|cf rest IH]; intros i acc.
  - cbn. ring.
  - cbn [reduce_from Formula.discounted]. rewrite IH.
    unfold Math_pow, discountRate.
    assert (E : 1 + (1 # 10) == 11 # 10) by reflexivity.
    rewrite E. ring.
Qed.

Lemma npv_discounted (projections : list Projection.t) (capex : number) :
  FinancialMetrics.npv (calculateFinancialMetrics projections capex)
  = Math_round (- capex + Formula.discounted 1 (map cashFlow projections)).
Proof.
  unfold calculateFinancialMetrics; cbn [FinancialMetrics.npv].
  apply Math_round_comp. unfold reduce. cbn [reduce_from].
  rewrite npv_reduce. unfold Math_pow. cbn [Z.add Qpower].
  setoid_replace (- capex / 1) with (- capex) by field. ring.
Qed.


End Metrics.

(** ** The same loops in doubles *)

Section DoubleProjections.

Import PrimFloat Binary64.GenerateReport.

(** After [k] iterations the locals hold the compounded values, each product
    rounded as the loop rounds it, and the array holds the first [k]
    entries. *)
Lemma double_projection_loop_invariant (data : ProjectionInput.t) (k : nat) :
  let st := fold_left (projection_step data) (for_range 1 k) (loop_init data) in
  Loop.customers st
  = Binary64.Formula.compounded (ProjectionInput.initialCount data)
      (1 + ProjectionInput.growthRate data)%float k
  /\ Loop.opex st
     = Binary64.Formula.compounded (ProjectionInput.opex data) 1.1%float k
  /\ Loop.projections st = map (Binary64.Formula.projected data) (seq 0 k).
Proof.
  induction k as [|k IH]; cbn zeta.
  - split; [reflexivity|]. split; reflexivity.
  - rewrite for_range_succ, fold_left_app. cbn zeta in IH.
    destruct IH as (Hc & Ho & Hp). cbn [fold_left].
    set (st := fold_left (projection_step data) (for_range 1 k) _) in *.
    unfold projection_step; cbn [Loop.customers Loop.opex Loop.projections].
    split; [rewrite Hc; reflexivity|]. split; [rewrite Ho; reflexivity|].
    rewrite Hp, seq_S, map_app. cbn [map Nat.add]. f_equal. f_equal.
    unfold Binary64.Formula.projected. rewrite Hc, Ho. reflexivity.
Qed.

Lemma double_projected_nth (data : ProjectionInput.t) (i : nat) :
  (i < 5)%nat ->
  nth_error (calculateFinancialProjections data) i
  = Some (Binary64.Formula.projected data i).
Proof.
  intros Hi. unfold calculateFinancialProjections.
  rewrite (proj2 (proj2 (double_projection_loop_invariant data 5))).
  rewrite nth_error_map, nth_error_seq.
  destruct (Nat.ltb_spec i 5) as [_|]; [reflexivity | lia].
Qed.

(** C1 (as amended). For the data [POST] validated, with initial customer
    count [c], growth fraction [g] (the double quotient of the submitted
    percentage by 100) and monthly revenue per user [arpu], the entry of
    year [n] (for [1 <= n <= 5]) has [customers = Math.round x] and
    [revenue = Math.round ((x * arpu) * 12)], where [x] is [c] multiplied
    [n - 1] times by the double [1 + g], every product being rounded to the
    nearest double.  [x] is [c (1+g)^(n-1)] up to these roundings only. *)
Theorem projections_customers_revenue (d : BusinessCaseData.t) (n : Z) :
  (1 <= n <= 5)%Z ->
  let c := Customers.initialCount (BusinessCaseData.customers d) in
  let g := (Customers.growthRate (BusinessCaseData.customers d) / 100)%float in
  let arpu := Customers.arpu (BusinessCaseData.customers d) in
  let x := Binary64.Formula.compounded c (1 + g)%float (Z.to_nat (n - 1)) in
  exists p : Binary64.Projection.t,
    nth_error (calculateFinancialProjections (projection_input d))
              (Z.to_nat (n - 1)) = Some p
    /\ Binary64.Projection.customers p = Binary64.Math_round x
    /\ Binary64.Projection.revenue p
       = Binary64.Math_round (x * arpu * 12)%float.
Proof.
  intros Hn c g arpu x.
  exists (Binary64.Formula.projected (projection_input d) (Z.to_nat (n - 1))).
  split; [apply double_projected_nth; lia|].
  split; reflexivity.
Qed.

Lemma projections_customers_revenue_witness :
  exists p : Binary64.Projection.t,
    nth_error (calculateFinancialProjections
                 (projection_input Binary64.Sample.thirteenPercent)) 2
    = Some p
    /\ Binary64.Projection.customers p = 64%float
    /\ Binary64.Projection.revenue p = 19153%float.
Proof.
  destruct (projections_customers_revenue Binary64.Sample.thirteenPercent 3
              ltac:(lia)) as (p & Hp & Hc & Hr).
  exists p. split; [exact Hp|].
  split; [rewrite Hc | rewrite Hr]; vm_compute; reflexivity.
Defined.

(** C1 as stated fails: for 50 customers growing 13% a year at 25 per month
    the code returns 56 customers in year 2 and a revenue of 19153 in year
    3, where [round (c (1+g)^(n-1))] is 57 and
    [round (c (1+g)^(n-1) * arpu * 12)] is 19154, whether [g] is read as
    the fraction 13/100 or as the double the route passes. *)
Lemma thirteen_percent_misses_formula :
  exists (p q : Binary64.Projection.t) (g customers revenue : Q),
    nth_error (calculateFinancialProjections
                 (projection_input Binary64.Sample.thirteenPercent)) 1
    = Some p
    /\ nth_error (calculateFinancialProjections
                    (projection_input Binary64.Sample.thirteenPercent)) 2
       = Some q
    /\ Binary64.exact (13 / 100)%float = Some g
    /\ Binary64.exact (Binary64.Projection.customers p) = Some customers
    /\ Binary64.exact (Binary64.Projection.revenue q) = Some revenue
    /\ customers == 56
    /\ Math_round (50 * (1 + 13 / 100) ^ 1) == 57
    /\ Math_round (50 * (1 + g) ^ 1) == 57
    /\ ~ customers == Math_round (50 * (1 + 13 / 100) ^ 1)
    /\ ~ customers == Math_round (50 * (1 + g) ^ 1)
    /\ revenue == 19153
    /\ Math_round (50 * (1 + 13 / 100) ^ 2 * 25 * 12) == 19154
    /\ Math_round (50 * (1 + g) ^ 2 * 25 * 12) == 19154
    /\ ~ revenue == Math_round (50 * (1 + 13 / 100) ^ 2 * 25 * 12)
    /\ ~ revenue == Math_round (50 * (1 + g) ^ 2 * 25 * 12).
Proof.
  do 5 eexists.
  split; [vm_compute; reflexivity|]. split; [vm_compute; reflexivity|].
  split; [vm_compute; reflexivity|]. split; [vm_compute; reflexivity|].
  split; [vm_compute; reflexivity|].
  repeat split;
    try (vm_compute; reflexivity);
    intros H; vm_compute in H; discriminate H.
Qed.

(** C3 (as amended). For every input with initial operating expenditure
    [opex0] and every year [n] with [1 <= n <= 5], the entry of year [n] has
    [opex = Math.round y], where [y] is [opex0] multiplied [n - 1] times by
    the double nearest to 1.1, every product being rounded to the nearest
    double: a 10% increase per year up to these roundings. *)
Theorem projections_opex (data : ProjectionInput.t) (n : Z) :
  (1 <= n <= 5)%Z ->
  exists p : Binary64.Projection.t,
    nth_error (calculateFinancialProjections data) (Z.to_nat (n - 1)) = Some p
    /\ Binary64.Projection.opex p
       = Binary64.Math_round
           (Binary64.Formula.compounded (ProjectionInput.opex data)
              1.1%float (Z.to_nat (n - 1))).
Proof.
  intros Hn.
  exists (Binary64.Formula.projected data (Z.to_nat (n - 1))).
  split; [apply double_projected_nth; lia | reflexivity].
Qed.

Lemma projections_opex_witness :
  exists p : Binary64.Projection.t,
    nth_error (calculateFinancialProjections Binary64.Sample.largeOpex) 4
    = Some p
    /\ Binary64.Projection.opex p = 574112339952%float.
Proof.
  destruct (projections_opex Binary64.Sample.largeOpex 5 ltac:(lia))
    as (p & Hp & Ho).
  exists p. split; [exact Hp | rewrite Ho; vm_compute; reflexivity].
Defined.

(** C3 as stated fails: from an operating expenditure of 392 126 453 078 the
    code returns 574 112 339 952 for year 5, where
    [round (opex0 * 1.1^4)] is 574 112 339 951, whether 1.1 is read as the
    fraction 11/10 or as the double nearest to it. *)
Lemma large_opex_misses_formula :
  exists (p : Binary64.Projection.t) (factor opex : Q),
    nth_error (calculateFinancialProjections Binary64.Sample.largeOpex) 4
    = Some p
    /\ Binary64.exact 1.1%float = Some factor
    /\ Binary64.exact (Binary64.Projection.opex p) = Some opex
    /\ opex == 574112339952
    /\ Math_round (392126453078 * (11 # 10) ^ 4) == 574112339951
    /\ Math_round (392126453078 * factor ^ 4) == 574112339951
    /\ ~ opex == Math_round (392126453078 * (11 # 10) ^ 4)
    /\ ~ opex == Math_round (392126453078 * factor ^ 4).
Proof.
  do 3 eexists.
  split; [vm_compute; reflexivity|]. split; [vm_compute; reflexivity|].
  split; [vm_compute; reflexivity|].
  repeat split;
    try (vm_compute; reflexivity);
    intros H; vm_compute in H; discriminate H.
Qed.

(** The rounding of the entries, at the points where a sum [x + 0.5] would
    go wrong. *)
Example double_Math_round_values :
  map Binary64.Math_round
      [2.5; (-2.5); 0.49999999999999994; (-0.2); 56.499999999999993;
       4503599627370495.5]%float
  = [3; (-2); 0; (-0); 56; 4503599627370496]%float.
Proof. vm_compute. reflexivity. Qed.

(** On the sample case of the rational model (100 customers growing 10% a
    year at 5 per month, costs of 1000) the doubles give the same entries. *)
Example double_sample_projections :
  let data :=
    {| ProjectionInput.initialCount := 100;
       ProjectionInput.growthRate := (10 / 100);
       ProjectionInput.arpu := 5;
       ProjectionInput.opex := 1000 |}%float in
  map Binary64.Projection.customers (calculateFinancialProjections data)
  = [100; 110; 121; 133; 146]%float
  /\ map Binary64.Projection.revenue (calculateFinancialProjections data)
     = [6000; 6600; 7260; 7986; 8785]%float
  /\ map Binary64.Projection.opex (calculateFinancialProjections data)
     = [1000; 1100; 1210; 1331; 1464]%float.
Proof. vm_compute. repeat split. Qed.

End DoubleProjections.

(** ** Net present value in doubles *)

Section DoubleMetrics.

Import PrimFloat Binary64.GenerateReport.

Variable Math_pow : Binary64.number -> Binary64.number -> Binary64.number.

(** C2 (as amended). For every array of five yearly entries and every
    [capex], the [npv] field is [Math.round] of the sum the [reduce] builds
    from 0 in doubles, left to right: first [-capex / pow(1.1, 0)], then
    for each year [t] the cash flow [revenue_t - opex_t] divided by
    [pow(1.1, t)], where 1.1 is the double [1 + 0.1] and [pow] is
    [Math.pow]; every difference, quotient and sum is rounded to the nearest
    double.  It is the cash flow discounted at 10% with the investment as
    the flow of time 0, up to these roundings only. *)
Theorem npv_five_years (p1 p2 p3 p4 p5 : Binary64.Projection.t)
    (capex : Binary64.number) :
  let cf (p : Binary64.Projection.t) :=
    (Binary64.Projection.revenue p - Binary64.Projection.opex p)%float in
  let discount (t : Z) := Math_pow (1 + 0.1)%float (Binary64.of_Z t) in
  FinancialMetrics.npv
    (calculateFinancialMetrics Math_pow [p1; p2; p3; p4; p5] capex)
  = Binary64.Math_round
      (0 + (- capex) / discount 0%Z
       + cf p1 / discount 1%Z + cf p2 / discount 2%Z
       + cf p3 / discount 3%Z + cf p4 / discount 4%Z
       + cf p5 / discount 5%Z)%float.
Proof. reflexivity. Qed.

(** On entries with a cash flow in the first year only, the result depends
    on [Math.pow] through its values at the exponents 0 and 1, which every
    engine returns exactly. *)
Lemma npv_first_year_only (revenue capex : Binary64.number) :
  Math_pow (1 + 0.1)%float 0%float = 1%float ->
  Math_pow (1 + 0.1)%float 1%float = (1 + 0.1)%float ->
  (forall t : Z, (2 <= t <= 5)%Z ->
     (0 / Math_pow (1 + 0.1)%float (Binary64.of_Z t))%float = 0%float) ->
  FinancialMetrics.npv
    (calculateFinancialMetrics Math_pow
       (Binary64.Sample.firstYearOnly revenue) capex)
  = Binary64.Math_round
      (0 + (- capex) / 1 + (revenue - 0) / (1 + 0.1) + 0 + 0 + 0 + 0)%float.
Proof.
  intros H0 H1 Hz.
  pose proof (Hz 2%Z ltac:(lia)) as H2. pose proof (Hz 3%Z ltac:(lia)) as H3.
  pose proof (Hz 4%Z ltac:(lia)) as H4. pose proof (Hz 5%Z ltac:(lia)) as H5.
  unfold Binary64.Sample.firstYearOnly, for_range. cbn [map seq].
  rewrite (npv_five_years _ _ _ _ _ capex). cbn zeta.
  cbn [Binary64.Projection.revenue Binary64.Projection.opex].
  change (Binary64.of_Z 0) with 0%float.
  change (Binary64.of_Z 1) with 1%float.
  change (0 - 0)%float with 0%float.
  rewrite H0, H1, H2, H3, H4, H5. reflexivity.
Qed.

End DoubleMetrics.

Section DoubleMetricsSample.

Import PrimFloat Binary64.GenerateReport.

Lemma npv_five_years_witness :
  FinancialMetrics.npv
    (calculateFinancialMetrics Binary64.Sample.Math_pow
       (Binary64.Sample.firstYearOnly 33) 0.5%float)
  = 29%float.
Proof.
  unfold Binary64.Sample.firstYearOnly, for_range. cbn [map seq].
  rewrite (npv_five_years Binary64.Sample.Math_pow).
  vm_compute. reflexivity.
Defined.

(** C2 as stated fails.  With a revenue of 33 in the first year and an
    investment of 0.5 the code returns 29 where
    [round (-capex + sum of cf_t / 1.1^t)] is 30 (the sum is 29.5; the
    quotient [33 / 1.1] of the code falls below 30).  Reading 1.1 as the
    double of the code does not save the claim: with a revenue of 22 the
    code returns 20 (its quotient [22 / 1.1] is rounded up to 20) where the
    formula over the double gives 19. *)
Lemma first_year_revenue_misses_formula :
  (exists npv : Q,
     Binary64.exact
       (FinancialMetrics.npv
          (calculateFinancialMetrics Binary64.Sample.Math_pow
             (Binary64.Sample.firstYearOnly 33) 0.5%float)) = Some npv
     /\ npv == 29
     /\ Math_round (- (1 # 2) + Formula.discounted 1 [33 - 0; 0; 0; 0; 0])
        == 30
     /\ ~ npv
          == Math_round
               (- (1 # 2) + Formula.discounted 1 [33 - 0; 0; 0; 0; 0]))
  /\ (exists npv factor : Q,
        Binary64.exact (1 + 0.1)%float = Some factor
        /\ Binary64.exact
             (FinancialMetrics.npv
                (calculateFinancialMetrics Binary64.Sample.Math_pow
                   (Binary64.Sample.firstYearOnly 22) 0.5%float)) = Some npv
        /\ npv == 20
        /\ Math_round
             (- (1 # 2)
              + ((22 - 0) / factor ^ 1 + 0 / factor ^ 2 + 0 / factor ^ 3
                 + 0 / factor ^ 4 + 0 / factor ^ 5)) == 19
        /\ ~ npv
             == Math_round
                  (- (1 # 2)
                   + ((22 - 0) / factor ^ 1 + 0 / factor ^ 2 + 0 / factor ^ 3
                      + 0 / factor ^ 4 + 0 / factor ^ 5))).
Proof.
  split.
  - eexists. split; [vm_compute; reflexivity|].
    repeat split;
      try (vm_compute; reflexivity);
      intros H; vm_compute in H; discriminate H.
  - do 2 eexists.
    split; [vm_compute; reflexivity|]. split; [vm_compute; reflexivity|].
    repeat split;
      try (vm_compute; reflexivity);
      intros H; vm_compute in H; discriminate H.
Qed.

(** The stand-in for [Math.pow] is exact where the sample relies on it. *)
Example sample_Math_pow_exact :
  Binary64.Sample.Math_pow (1 + 0.1)%float 0%float = 1%float
  /\ Binary64.Sample.Math_pow (1 + 0.1)%float 1%float = (1 + 0.1)%float
  /\ forall t : Z, (2 <= t <= 5)%Z ->
       (0 / Binary64.Sample.Math_pow (1 + 0.1)%float (Binary64.of_Z t))%float
       = 0%float.
Proof.
  split; [vm_compute; reflexivity|]. split; [vm_compute; reflexivity|].
  intros t Ht.
  assert (E : t = 2%Z \/ t = 3%Z \/ t = 4%Z \/ t = 5%Z) by lia.
  destruct E as [-> | [-> | [-> | ->]]]; vm_compute; reflexivity.
Qed.

(** On the sample case of the rational model (capex 5000) the doubles give
    the same return on investment, simplified rate and payback period;
    none of them goes through [Math.pow]. *)
Example double_sample_metrics :
  let projections :=
    calculateFinancialProjections
      {| ProjectionInput.initialCount := 100;
         ProjectionInput.growthRate := (10 / 100);
         ProjectionInput.arpu := 5;
         ProjectionInput.opex := 1000 |}%float in
  forall Math_pow : Binary64.number -> Binary64.number -> Binary64.number,
    let m := calculateFinancialMetrics Math_pow projections 5000%float in
    FinancialMetrics.roi m = 511%float
    /\ FinancialMetrics.irr m = 102%float
    /\ FinancialMetrics.paybackPeriod m = 2%float.
Proof. intros projections Math_pow m. vm_compute. repeat split. Qed.

End DoubleMetricsSample.


(** ** Searching and slicing strings *)

Section Strings.

Import Formula.

Lemma get_lt (text : string) (k : nat) (c : ascii) :
  String.get k text = Some c -> (k < String.length text)%nat.
Proof.
  revert k. induction text as [|a rest IH]; intros k H; [discriminate|].
  destruct k as [|k]; cbn in *; [lia|]. apply IH in H. lia.
Qed.

Lemma indexOf_from_cases (text : string) (ch : ascii) (i : Z) :
  (0 <= i)%Z ->
  (indexOf_from text ch i = (-1)%Z
   /\ forall k, String.get k text <> Some ch)
  \/ (exists k : nat,
        indexOf_from text ch i = (i + Z.of_nat k)%Z /\ first_at text ch k).
Proof.
  revert i. induction text as [|a rest IH]; intros i Hi; cbn [indexOf_from].
  - left. split; [reflexivity | intros k; destruct k; discriminate].
  - destruct (Ascii.eqb_spec a ch) as [->|Hne].
    + right. exists 0%nat. split; [lia|]. split; [reflexivity | intros k Hk; lia].
    + destruct (IH (i + 1)%Z ltac:(lia)) as [[E Hno] | (k & E & Hk & Hmin)].
      * left. split; [exact E|]. intros [|k]; cbn; [congruence | apply Hno].
      * right. exists (S k). split; [lia|]. split; [exact Hk|].
        intros [|k'] Hlt; cbn; [congruence | apply Hmin; lia].
Qed.

Lemma lastIndexOf_from_cases (text : string) (ch : ascii) (i : Z) :
  (0 <= i)%Z ->
  (lastIndexOf_from text ch i = (-1)%Z
   /\ forall k, String.get k text <> Some ch)
  \/ (exists k : nat,
        lastIndexOf_from text ch i = (i + Z.of_nat k)%Z /\ last_at text ch k).
Proof.
  revert i. induction text as [|a rest IH]; intros i Hi;
    cbn [lastIndexOf_from].
  - left. split; [reflexivity | intros k; destruct k; discriminate].
  - destruct (IH (i + 1)%Z ltac:(lia)) as [[E Hno] | (k & E & Hk & Hmax)].
    + cbn zeta. rewrite E, Z.eqb_refl.
      destruct (Ascii.eqb_spec a ch) as [->|Hne].
      * right. exists 0%nat. split; [lia|]. split; [reflexivity|].
        intros [|k] Hlt; [lia | cbn; apply Hno].
      * left. split; [reflexivity|].
        intros [|k]; cbn; [congruence | apply Hno].
    + cbn zeta. rewrite E.
      destruct (Z.eqb_spec (i + 1 + Z.of_nat k) (-1)); [lia|].
      right. exists (S k). split; [lia|]. split; [exact Hk|].
      intros [|k'] Hlt; [lia | cbn; apply Hmax; lia].
Qed.

Lemma substring_empty (n : nat) (text : string) : substring n 0 text = "".
Proof.
  revert n. induction text as [|a rest IH]; intros [|n]; cbn; auto.
Qed.

(** A slice between two positions inside the string holds the characters
    from [i] up to, and without, [e]. *)
Lemma slice_inside (text : string) (i e : nat) :
  (i <= String.length text)%nat -> (e <= String.length text)%nat ->
  slice text (Z.of_nat i) (Z.of_nat e) = substring i (e - i) text.
Proof.
  intros Hi He. unfold slice, slice_index.
  destruct (Z.ltb_spec (Z.of_nat i) 0); [lia|].
  destruct (Z.ltb_spec (Z.of_nat e) 0); [lia|].
  f_equal; lia.
Qed.

Lemma cleanJsonResponse_cases (text : string) :
  (GenerateReport.cleanJsonResponse text = inl GenerateReport.no_json_found
   /\ (~ contains text "{" \/ ~ contains text "}"))
  \/ (exists i j : nat,
        first_at text "{" i /\ last_at text "}" j
        /\ GenerateReport.cleanJsonResponse text
           = inr (slice text (Z.of_nat i) (Z.of_nat j + 1))).
Proof.
  unfold GenerateReport.cleanJsonResponse, indexOf, lastIndexOf.
  destruct (indexOf_from_cases text "{" 0 ltac:(lia))
    as [[E Hno] | (i & E & Hi)]; rewrite E.
  - left. split; [reflexivity|]. left. intros [k Hk]. exact (Hno k Hk).
  - destruct (lastIndexOf_from_cases text "}" 0 ltac:(lia))
      as [[E' Hno] | (j & E' & Hj)]; rewrite E'.
    + left. destruct (Z.eqb_spec (0 + Z.of_nat i) (-1)); [lia|].
      split; [reflexivity|]. right. intros [k Hk]. exact (Hno k Hk).
    + right. exists i, j.
      destruct (Z.eqb_spec (0 + Z.of_nat i) (-1)); [lia|].
      destruct (Z.eqb_spec (0 + Z.of_nat j) (-1)); [lia|].
      split; [exact Hi|]. split; [exact Hj|]. reflexivity.
Qed.

Lemma first_at_unique (text : string) (ch : ascii) (i i' : nat) :
  first_at text ch i -> first_at text ch i' -> i = i'.
Proof.
  intros [Hi Hmin] [Hi' Hmin'].
  destruct (Nat.lt_trichotomy i i') as [L | [E | L]]; [|exact E|].
  - elim (Hmin' i L Hi).
  - elim (Hmin i' L Hi').
Qed.

Lemma last_at_unique (text : string) (ch : ascii) (j j' : nat) :
  last_at text ch j -> last_at text ch j' -> j = j'.
Proof.
  intros [Hj Hmax] [Hj' Hmax'].
  destruct (Nat.lt_trichotomy j j') as [L | [E | L]]; [|exact E|].
  - elim (Hmax j' L Hj').
  - elim (Hmax' j L Hj).
Qed.

(** C8. [cleanJsonResponse] throws its "No valid JSON object found in
    response" error exactly when the text has no opening brace or no closing
    brace (and throws nothing else); when it has both, with the first opening
    brace at [i] and the last closing brace at [j], it returns
    [text.slice(i, j + 1)], whose characters are those of the positions [i]
    to [j] inclusive, and which is the empty string, not a JSON object, when
    [j < i]. *)
Theorem cleanJsonResponse_spec (text : string) :
  (GenerateReport.cleanJsonResponse text = inl GenerateReport.no_json_found
   <-> ~ contains text "{" \/ ~ contains text "}")
  /\ (forall e : exn,
        GenerateReport.cleanJsonResponse text = inl e ->
        e = GenerateReport.no_json_found)
  /\ (contains text "{" -> contains text "}" ->
      forall i j : nat,
        first_at text "{" i -> last_at text "}" j ->
        exists r : string,
          GenerateReport.cleanJsonResponse text = inr r
          /\ r = slice text (Z.of_nat i) (Z.of_nat j + 1)
          /\ (forall k : nat,
                String.get k r
                = if (k <? j + 1 - i)%nat then String.get (i + k) text
                  else None)
          /\ ((j < i)%nat -> r = ""))
  /\ (contains text "{" -> contains text "}" ->
      exists i j : nat, first_at text "{" i /\ last_at text "}" j).
Proof.
  destruct (cleanJsonResponse_cases text)
    as [[E Hmiss] | (i & j & Hi & Hj & E)].
  - split; [split; [intros _; exact Hmiss | intros _; exact E]|].
    split; [intros e He; congruence|].
    split; intros Ho Hc; destruct Hmiss as [H | H]; contradiction.
  - assert (Hopen : contains text "{") by (exists i; apply Hi).
    assert (Hclose : contains text "}") by (exists j; apply Hj).
    split; [split|].
    + intros H. congruence.
    + intros [H | H]; contradiction.
    + split; [intros e He; congruence|]. split.
      * intros _ _ i' j' Hi' Hj'.
        rewrite <- (first_at_unique _ _ _ _ Hi Hi').
        rewrite <- (last_at_unique _ _ _ _ Hj Hj').
        pose proof (get_lt _ _ _ (proj1 Hi)) as Li.
        pose proof (get_lt _ _ _ (proj1 Hj)) as Lj.
        exists (slice text (Z.of_nat i) (Z.of_nat j + 1)).
        split; [exact E|]. split; [reflexivity|].
        replace (Z.of_nat j + 1)%Z with (Z.of_nat (j + 1)) by lia.
        rewrite slice_inside by lia. split.
        -- intros k. destruct (Nat.ltb_spec k (j + 1 - i)) as [L | L].
           ++ rewrite substring_correct1 by exact L. f_equal. lia.
           ++ apply substring_correct2. exact L.
        -- intros L. replace (j + 1 - i)%nat with 0%nat by lia.
           apply substring_empty.
      * intros _ _. exists i, j. split; assumption.
Qed.

Lemma cleanJsonResponse_spec_witness :
  exists r : string,
    GenerateReport.cleanJsonResponse "Here: {x} ok" = inr r
    /\ r = slice "Here: {x} ok" 6 (8 + 1)
    /\ (forall k : nat,
          String.get k r
          = if (k <? 8 + 1 - 6)%nat then String.get (6 + k) "Here: {x} ok"
            else None)
    /\ ((8 < 6)%nat -> r = "").
Proof.
  refine (proj1 (proj2 (proj2 (cleanJsonResponse_spec "Here: {x} ok")))
            (ex_intro _ 6%nat eq_refl) (ex_intro _ 8%nat eq_refl)
            6%nat 8%nat _ _).
  - split; [reflexivity|].
    intros k Hk. do 6 (destruct k as [|k]; [discriminate|]). lia.
  - split; [reflexivity|].
    intros k Hk. do 9 (destruct k as [|k]; [lia|]).
    do 3 (destruct k as [|k]; [discriminate|]). discriminate.
Defined.

Example cleanJsonResponse_object :
  GenerateReport.cleanJsonResponse "Here: {x} ok" = inr "{x}".
Proof. reflexivity. Qed.

Example cleanJsonResponse_reversed :
  GenerateReport.cleanJsonResponse "} then {" = inr "".
Proof. reflexivity. Qed.

Example cleanJsonResponse_no_brace :
  GenerateReport.cleanJsonResponse "no object here"
  = inl GenerateReport.no_json_found.
Proof. reflexivity. Qed.

End Strings.

(** ** The form's validation schema *)

Section FormSchema.

Import GenerateReport.




End FormSchema.

(** ** Error handling of the route handlers *)

Section RouteErrors.

Import GenerateReport.

(** C5 (as amended). Whenever the body of the generate-report handler
    throws, the handler answers with status 500 and a JSON object that has
    both an [error] and a [details] member.  Whenever the body of an export
    handler (PDF or DOCX) throws, the handler answers with status 500 and a
    JSON object that has an [error] member and no [details] member. *)
Theorem error_responses :
  (forall (JSON_parse : string -> throws json)
          (Number_toString : number -> string)
          (ZodError_message : json -> string)
          (TypeError_message : option json -> string)
          (req : Request.t) (llm : Completions.t) (error : exn),
     POST_try JSON_parse Number_toString ZodError_message TypeError_message
              req llm = inl error ->
     let r := POST JSON_parse Number_toString ZodError_message
                   TypeError_message req llm in
     Response.status r = 500%Z
     /\ has_field "error" r = true
     /\ has_field "details" r = true)
  /\ (forall (render : json -> throws (list Byte.byte)) (req : Request.t)
             (error : exn),
        ExportRoute.pdf_POST_try render req = inl error ->
        let r := ExportRoute.pdf_POST render req in
        Response.status r = 500%Z
        /\ has_field "error" r = true
        /\ has_field "details" r = false)
  /\ (forall (render : json -> throws (list Byte.byte)) (req : Request.t)
             (error : exn),
        ExportRoute.docx_POST_try render req = inl error ->
        let r := ExportRoute.docx_POST render req in
        Response.status r = 500%Z
        /\ has_field "error" r = true
        /\ has_field "details" r = false).
Proof.
  split; [|split].
  - intros parse num zod ty req llm error H r. subst r.
    unfold POST. rewrite H. repeat split.
  - intros render req error H r. subst r.
    unfold ExportRoute.pdf_POST, ExportRoute.POST.
    unfold ExportRoute.pdf_POST_try in H. rewrite H. repeat split.
  - intros render req error H r. subst r.
    unfold ExportRoute.docx_POST, ExportRoute.POST.
    unfold ExportRoute.docx_POST_try in H. rewrite H. repeat split.
Qed.

Lemma error_responses_witness :
  let r := POST Sample.JSON_parse Sample.Number_toString
                Sample.ZodError_message Sample.TypeError_message
                Sample.truncatedRequest
                {| Completions.market := Sample.emptyObjectReply;
                   Completions.risk := Sample.emptyObjectReply;
                   Completions.report := Sample.emptyObjectReply |} in
  Response.status r = 500%Z
  /\ has_field "error" r = true
  /\ has_field "details" r = true.
Proof.
  refine (proj1 error_responses _ _ _ _ _ _
            (JsError "Unexpected end of JSON input") _).
  reflexivity.
Defined.

(** C5 as stated fails for the export routes: on a report without
    projections the document builder throws and the answer of either export
    handler, with status 500, has an [error] member but no [details]
    member. *)
Lemma export_error_without_details :
  ExportRoute.pdf_POST_try Sample.render Sample.emptyReportRequest
  = inl (JsError "Cannot read properties of undefined (reading 'map')")
  /\ ExportRoute.docx_POST_try Sample.render Sample.emptyReportRequest
     = inl (JsError "Cannot read properties of undefined (reading 'map')")
  /\ Response.status (ExportRoute.pdf_POST Sample.render
                        Sample.emptyReportRequest) = 500%Z
  /\ has_field "details" (ExportRoute.pdf_POST Sample.render
                            Sample.emptyReportRequest) = false
  /\ Response.status (ExportRoute.docx_POST Sample.render
                        Sample.emptyReportRequest) = 500%Z
  /\ has_field "details" (ExportRoute.docx_POST Sample.render
                            Sample.emptyReportRequest) = false.
Proof. repeat split. Qed.

End RouteErrors.

(** ** Malformed replies of the model *)

(** Runs the monadic plumbing ([bind], [ret], [throw], [try_catch]) on
    a goal without unfolding the functions of the route. *)
Ltac run_monad :=
  cbn [bind ret Monad_either catch Exception_either raise try_catch throw].

Section MalformedReplies.

Import GenerateReport.

Variable JSON_parse : string -> throws json.
Variable Number_toString : number -> string.
Variable ZodError_message : json -> string.
Variable TypeError_message : option json -> string.

Local Abbreviation risk :=
  (generateRiskAnalysis JSON_parse Number_toString TypeError_message).
Local Abbreviation market := (generateMarketAnalysis JSON_parse).
Local Abbreviation post :=
  (POST JSON_parse Number_toString ZodError_message TypeError_message).

Lemma eqb_empty_false (content : string) :
  content <> "" -> String.eqb content "" = false.
Proof. intros H. apply String.eqb_neq. exact H. Qed.

Lemma risk_never_throws (reply : completion) :
  risk reply = inr basic_risk_fallback
  \/ risk reply = inr parse_risk_fallback
  \/ exists content cleaned parsed,
       reply = inr (Some content)
       /\ cleanJsonResponse content = inr cleaned
       /\ JSON_parse cleaned = inr parsed
       /\ risk reply
          = inr {| RiskAnalysis.risks :=
                     risk_text Number_toString "risks" parsed;
                   RiskAnalysis.impactAssessment :=
                     risk_text Number_toString "impactAssessment" parsed;
                   RiskAnalysis.mitigationStrategies :=
                     risk_text Number_toString "mitigationStrategies" parsed;
                   RiskAnalysis.contingencyPlans :=
                     risk_text Number_toString "contingencyPlans" parsed;
                   RiskAnalysis.riskMonitoringApproach :=
                     risk_text Number_toString "riskMonitoringApproach"
                               parsed |}.
Proof.
  unfold generateRiskAnalysis.
  destruct reply as [e | [content|]]; run_monad;
    [left; reflexivity | | left; reflexivity].
  destruct (String.eqb content ""); run_monad; [left; reflexivity|].
  destruct (cleanJsonResponse content) as [e | cleaned] eqn:Ec; run_monad;
    [right; left; reflexivity|].
  destruct (JSON_parse cleaned) as [e | parsed] eqn:Ep; run_monad;
    [right; left; reflexivity|].
  destruct (check_required TypeError_message requiredFields parsed)
    as [e | []] eqn:Er; run_monad; [right; left; reflexivity|].
  right; right. exists content, cleaned, parsed. repeat split; assumption.
Qed.

(** A reply is malformed for [generateRiskAnalysis] when no object can be
    cut out of it, when the cut does not parse, or when the parsed value
    lacks a required member. *)
Lemma risk_parse_failure (content : string) (e : exn) :
  content <> "" ->
  cleanJsonResponse content = inl e
  \/ (exists cleaned,
        cleanJsonResponse content = inr cleaned
        /\ JSON_parse cleaned = inl e)
  \/ (exists cleaned parsed,
        cleanJsonResponse content = inr cleaned
        /\ JSON_parse cleaned = inr parsed
        /\ check_required TypeError_message requiredFields parsed = inl e) ->
  risk (inr (Some content)) = inr parse_risk_fallback.
Proof.
  intros Hne H. unfold generateRiskAnalysis. run_monad.
  rewrite (eqb_empty_false _ Hne).
  destruct H as [H | [(cleaned & Hc & Hp) | (cleaned & parsed & Hc & Hp & Hr)]].
  - rewrite H. reflexivity.
  - rewrite Hc. run_monad. rewrite Hp. reflexivity.
  - rewrite Hc. run_monad. rewrite Hp. run_monad. rewrite Hr. reflexivity.
Qed.

Lemma market_propagates (content : option string) (e : exn) :
  cleanJsonResponse (or_else content "{}") = inl e
  \/ (exists cleaned,
        cleanJsonResponse (or_else content "{}") = inr cleaned
        /\ JSON_parse cleaned = inl e) ->
  market (inr content) = inl e.
Proof.
  intros H. unfold generateMarketAnalysis. run_monad.
  destruct H as [H | (cleaned & Hc & Hp)].
  - rewrite H. reflexivity.
  - rewrite Hc. run_monad. exact Hp.
Qed.

Lemma market_failure_500 (req : Request.t) (llm : Completions.t)
    (body : json) (d : BusinessCaseData.t) (e : exn) :
  Request.json req = inr body ->
  businessCaseSchema_parse ZodError_message body = inr d ->
  market (Completions.market llm) = inl e ->
  post req llm = POST_catch e.
Proof.
  intros Hb Hd Hm. unfold POST, POST_try.
  rewrite Hb. run_monad. rewrite Hd. run_monad.
  rewrite Hm. reflexivity.
Qed.

(** The final parse is malformed when no object can be cut out of the
    reply, when the cut does not parse, or when the parsed object has no
    truthy [executiveSummary] or no array [financialProjections]. *)
Lemma report_failure_500 (req : Request.t) (llm : Completions.t)
    (body : json) (d : BusinessCaseData.t) (marketAnalysis : json)
    (result : string) (e : exn) :
  Request.json req = inr body ->
  businessCaseSchema_parse ZodError_message body = inr d ->
  market (Completions.market llm) = inr marketAnalysis ->
  Completions.report llm = inr (Some result) ->
  result <> "" ->
  cleanJsonResponse result = inl e
  \/ (exists cleaned,
        cleanJsonResponse result = inr cleaned /\ JSON_parse cleaned = inl e)
  \/ (exists cleaned members,
        cleanJsonResponse result = inr cleaned
        /\ JSON_parse cleaned = inr (JObject members)
        /\ (truthy (member "executiveSummary" members) = false
            \/ Array_isArray (member "financialProjections" members) = false)
        /\ e = JsError "Invalid report structure") ->
  post req llm
  = POST_catch
      (JsError ("Failed to parse OpenAI response as JSON. Error: "
                ++ message_or e "Unknown parsing error")%string).
Proof.
  intros Hb Hd Hm Hr Hne H. unfold POST, POST_try.
  rewrite Hb. run_monad. rewrite Hd. run_monad.
  rewrite Hm. run_monad.
  destruct (risk_never_throws (Completions.risk llm))
    as [E | [E | (c & cl & pa & _ & _ & _ & E)]]; rewrite E; run_monad;
    rewrite Hr; run_monad; rewrite (eqb_empty_false _ Hne);
    unfold assemble_report; run_monad;
    (destruct H as [H | [(cleaned & Hc & Hp)
                        | (cleaned & members & Hc & Hp & Hs & ->)]];
     [ rewrite H; reflexivity
     | rewrite Hc; run_monad; rewrite Hp; reflexivity
     | rewrite Hc; run_monad; rewrite Hp; run_monad;
       destruct Hs as [Hs | Hs]; rewrite Hs;
       rewrite ?orb_true_r; reflexivity ]).
Qed.

End MalformedReplies.

Section MalformedRepliesClaim.

Import GenerateReport.

(** C6 (as amended). Inside the generate-report route only
    [generateRiskAnalysis] absorbs a malformed reply: it never throws, and
    on a non-empty reply from which no object can be cut, whose cut does not
    parse or which lacks a required member, it returns the fixed five-field
    record [parse_risk_fallback].  A malformed reply to
    [generateMarketAnalysis] makes that function throw and the route answer
    with the error response of its [catch] block; a malformed final report
    is rethrown as "Failed to parse OpenAI response as JSON" and answered
    with the same error response (status 500). *)
Theorem malformed_replies
    (JSON_parse : string -> throws json)
    (Number_toString : number -> string)
    (ZodError_message : json -> string)
    (TypeError_message : option json -> string) :
  let risk :=
    generateRiskAnalysis JSON_parse Number_toString TypeError_message in
  let market := generateMarketAnalysis JSON_parse in
  let post :=
    POST JSON_parse Number_toString ZodError_message TypeError_message in
  (forall reply : completion, exists r, risk reply = inr r)
  /\ (forall (content : string) (e : exn),
        content <> "" ->
        cleanJsonResponse content = inl e
        \/ (exists cleaned,
              cleanJsonResponse content = inr cleaned
              /\ JSON_parse cleaned = inl e)
        \/ (exists cleaned parsed,
              cleanJsonResponse content = inr cleaned
              /\ JSON_parse cleaned = inr parsed
              /\ check_required TypeError_message requiredFields parsed
                 = inl e) ->
        risk (inr (Some content)) = inr parse_risk_fallback)
  /\ (forall (content : option string) (e : exn),
        cleanJsonResponse (or_else content "{}") = inl e
        \/ (exists cleaned,
              cleanJsonResponse (or_else content "{}") = inr cleaned
              /\ JSON_parse cleaned = inl e) ->
        market (inr content) = inl e
        /\ forall (req : Request.t) (llm : Completions.t) (body : json)
                  (d : BusinessCaseData.t),
             Request.json req = inr body ->
             businessCaseSchema_parse ZodError_message body = inr d ->
             Completions.market llm = inr content ->
             post req llm = POST_catch e
             /\ Response.status (post req llm) = 500%Z)
  /\ (forall (req : Request.t) (llm : Completions.t) (body : json)
             (d : BusinessCaseData.t) (marketAnalysis : json)
             (result : string) (e : exn),
        Request.json req = inr body ->
        businessCaseSchema_parse ZodError_message body = inr d ->
        market (Completions.market llm) = inr marketAnalysis ->
        Completions.report llm = inr (Some result) ->
        result <> "" ->
        cleanJsonResponse result = inl e
        \/ (exists cleaned,
              cleanJsonResponse result = inr cleaned
              /\ JSON_parse cleaned = inl e)
        \/ (exists cleaned members,
              cleanJsonResponse result = inr cleaned
              /\ JSON_parse cleaned = inr (JObject members)
              /\ (truthy (member "executiveSummary" members) = false
                  \/ Array_isArray (member "financialProjections" members)
                     = false)
              /\ e = JsError "Invalid report structure") ->
        post req llm
        = POST_catch
            (JsError ("Failed to parse OpenAI response as JSON. Error: "
                      ++ message_or e "Unknown parsing error")%string)
        /\ Response.status (post req llm) = 500%Z).
Proof.
  intros risk market post. split; [|split; [|split]].
  - intros reply.
    destruct (risk_never_throws JSON_parse Number_toString TypeError_message
                reply) as [E | [E | (c & cl & pa & _ & _ & _ & E)]];
      eexists; exact E.
  - intros content e Hne H.
    exact (risk_parse_failure JSON_parse Number_toString TypeError_message
             content e Hne H).
  - intros content e H.
    pose proof (market_propagates JSON_parse content e H) as Hm.
    split; [exact Hm|].
    intros req llm body d Hb Hd Hl.
    assert (E : post req llm = POST_catch e).
    { apply (market_failure_500 JSON_parse Number_toString ZodError_message
               TypeError_message req llm body d e Hb Hd).
      rewrite Hl. exact Hm. }
    split; [exact E | rewrite E; reflexivity].
  - intros req llm body d marketAnalysis result e Hb Hd Hm Hr Hne H.
    pose proof (report_failure_500 JSON_parse Number_toString
                  ZodError_message TypeError_message req llm body d
                  marketAnalysis result e Hb Hd Hm Hr Hne H) as E.
    split; [exact E | fold post in E; rewrite E; reflexivity].
Qed.

Lemma malformed_replies_witness :
  generateRiskAnalysis Sample.JSON_parse Sample.Number_toString
    Sample.TypeError_message Sample.proseReply
  = inr parse_risk_fallback.
Proof.
  refine (proj1 (proj2 (malformed_replies Sample.JSON_parse
                          Sample.Number_toString Sample.ZodError_message
                          Sample.TypeError_message))
            "no object here" no_json_found _ _).
  - discriminate.
  - left. reflexivity.
Defined.

(** C6 as stated fails for the two other parses: a reply without any JSON
    object makes [generateMarketAnalysis] throw, and the route answers 500;
    the same reply for the final report is rethrown and answered 500. *)
Lemma malformed_reply_propagates :
  let post := POST Sample.JSON_parse Sample.Number_toString
                   Sample.ZodError_message Sample.TypeError_message in
  generateMarketAnalysis Sample.JSON_parse Sample.proseReply
  = inl no_json_found
  /\ post Sample.request
          {| Completions.market := Sample.proseReply;
             Completions.risk := Sample.emptyObjectReply;
             Completions.report := Sample.emptyObjectReply |}
     = POST_catch no_json_found
  /\ Response.status (POST_catch no_json_found) = 500%Z
  /\ post Sample.request
          {| Completions.market := Sample.emptyObjectReply;
             Completions.risk := Sample.emptyObjectReply;
             Completions.report := Sample.proseReply |}
     = POST_catch
         (JsError "Failed to parse OpenAI response as JSON. Error: No valid JSON object found in response").
Proof. repeat split. Qed.

End MalformedRepliesClaim.

(** ** The report the route answers with *)

Section Report.

Import GenerateReport.

Variable JSON_parse : string -> throws json.
Variable Number_toString : number -> string.
Variable ZodError_message : json -> string.
Variable TypeError_message : option json -> string.

Lemma member_set_same (key : string) (v : json) (m : list (string * json)) :
  member key (set_member key v m) = Some v.
Proof.
  induction m as [|[k w] rest IH]; cbn.
  - rewrite String.eqb_refl. reflexivity.
  - destruct (String.eqb_spec k key) as [->|Hne]; cbn.
    + rewrite String.eqb_refl. reflexivity.
    + destruct (String.eqb_spec k key); [contradiction | exact IH].
Qed.

Lemma member_set_other (key key' : string) (v : json)
    (m : list (string * json)) :
  key <> key' -> member key (set_member key' v m) = member key m.
Proof.
  intros Hne. induction m as [|[k w] rest IH]; cbn.
  - destruct (String.eqb_spec key' key); [congruence | reflexivity].
  - destruct (String.eqb_spec k key') as [->|Hk]; cbn.
    + destruct (String.eqb_spec key' key); [congruence | reflexivity].
    + destruct (String.eqb_spec k key); [reflexivity | exact IH].
Qed.

Lemma set_metrics_keeps (key : string) (metrics : json)
    (m m' : list (string * json)) :
  key <> "financialAnalysis" ->
  set_metrics TypeError_message metrics m = inr m' ->
  member key m' = member key m.
Proof.
  intros Hne. unfold set_metrics.
  destruct (member "financialAnalysis" m) as [[| | | | |fa]|]; cbn;
    intros H; try discriminate; injection H as <-;
    [reflexivity | apply member_set_other; exact Hne].
Qed.

(** A successful answer of the route carries, under [financialProjections],
    the array [calculateFinancialProjections] computed from the request. *)
Lemma POST_report_projections (req : Request.t) (llm : Completions.t)
    (r : Response.t) :
  POST_try JSON_parse Number_toString ZodError_message TypeError_message
           req llm = inr r ->
  exists (body : json) (d : BusinessCaseData.t) (m : list (string * json)),
    Request.json req = inr body
    /\ businessCaseSchema_parse ZodError_message body = inr d
    /\ Response.status r = 200%Z
    /\ Response.content r = Json (JObject m)
    /\ member "financialProjections" m
       = Some (JArray (map json_of_projection
                         (calculateFinancialProjections (projection_input d)))).
Proof.
  unfold POST_try.
  destruct (Request.json req) as [e | body] eqn:Eb; run_monad;
    [discriminate|].
  destruct (businessCaseSchema_parse ZodError_message body) as [e | d] eqn:Ed;
    run_monad; [discriminate|].
  destruct (generateMarketAnalysis JSON_parse (Completions.market llm))
    as [e | marketAnalysis]; run_monad; [discriminate|].
  destruct (generateRiskAnalysis JSON_parse Number_toString TypeError_message
              (Completions.risk llm)) as [e | riskAnalysis]; run_monad;
    [discriminate|].
  destruct (Completions.report llm) as [e | [result|]]; run_monad;
    [discriminate | | discriminate].
  destruct (String.eqb result ""); run_monad; [discriminate|].
  unfold assemble_report.
  destruct (cleanJsonResponse result) as [e | cleaned]; run_monad;
    [discriminate|].
  destruct (JSON_parse cleaned) as [e | [| | | | |m]]; run_monad;
    try discriminate.
  destruct (negb (truthy (member "executiveSummary" m))
            || negb (Array_isArray (member "financialProjections" m)));
    run_monad; [discriminate|].
  destruct (set_metrics TypeError_message _ _) as [e | m'] eqn:Em; run_monad;
    [discriminate|].
  intros H. injection H as <-.
  exists body, d. eexists.
  split; [reflexivity|]. split; [exact Ed|]. split; [reflexivity|].
  split; [reflexivity|].
  rewrite !member_set_other by discriminate.
  assert (Hk : "financialProjections" <> "financialAnalysis") by discriminate.
  rewrite (set_metrics_keeps _ _ _ _ Hk Em).
  apply member_set_same.
Qed.

End Report.

(** * Further properties *)

(** ** Payback period, return on investment and net present value *)

Section FurtherMetrics.

Import GenerateReport.




End FurtherMetrics.


(** ** The timeline variant *)

Section FurtherTimeline.

Lemma timeline_npv_reduce (cashFlows : list number) (i : Z) (acc : number) :
  reduce_from
    (fun acc cf index =>
       acc + cf / Math_pow (1 + TimelineReport.discountRate) (index + 1))
    i cashFlows acc
  == acc + Formula.discounted (i + 1) cashFlows.
Proof.
  revert i acc. induction cashFlows as [|cf rest IH]; intros i acc.
  - cbn. ring.
  - cbn [reduce_from Formula.discounted]. rewrite IH.
    unfold Math_pow, TimelineReport.discountRate.
    assert (E : 1 + (1 # 10) == 11 # 10) by reflexivity.
    rewrite E. ring.
Qed.

Lemma timeline_metrics_returns (data : TimelineReport.BusinessCaseData.t)
    (projections : list Projection.t) (v : TimelineReport.FinancialMetrics.t) :
  TimelineReport.calculateFinancialMetrics data projections = inr v ->
  projections <> []
  /\ TimelineReport.FinancialMetrics.npv v
     == - TimelineReport.Financials.capex
            (TimelineReport.BusinessCaseData.financials data)
        + Formula.discounted 1 (map GenerateReport.cashFlow projections)
  /\ TimelineReport.FinancialMetrics.paybackPeriod v
     = TimelineReport.payback_loop
         (map GenerateReport.cashFlow projections) 0
         (- TimelineReport.Financials.capex
              (TimelineReport.BusinessCaseData.financials data))
         (TimelineReport.Financials.projectTimelineYears
            (TimelineReport.BusinessCaseData.financials data))
  /\ TimelineReport.FinancialMetrics.breakEvenPoint v
     = option_map Math_ceil
         (js_div
            (TimelineReport.Financials.opex
               (TimelineReport.BusinessCaseData.financials data)
             + TimelineReport.Financials.capex
                 (TimelineReport.BusinessCaseData.financials data))
            (TimelineReport.Customers.arpu
               (TimelineReport.BusinessCaseData.customers data) * 12)).
Proof.
  unfold TimelineReport.calculateFinancialMetrics.
  destruct projections as [|p rest]; [discriminate|].
  cbn [bind ret Monad_either]. intros H. injection H as <-.
  cbn [TimelineReport.FinancialMetrics.npv
       TimelineReport.FinancialMetrics.paybackPeriod
       TimelineReport.FinancialMetrics.breakEvenPoint].
  split; [discriminate|]. split; [|split; reflexivity].
  unfold reduce. rewrite timeline_npv_reduce. reflexivity.
Qed.

(** X3. On the same projections and investment the two copies of
    [calculateFinancialMetrics] agree on the net present value up to the
    final rounding: the main route returns the rounding of what the
    timeline variant returns. *)
Theorem npv_agrees_up_to_rounding (data : TimelineReport.BusinessCaseData.t)
    (projections : list Projection.t) (v : TimelineReport.FinancialMetrics.t) :
  TimelineReport.calculateFinancialMetrics data projections = inr v ->
  GenerateReport.FinancialMetrics.npv
    (GenerateReport.calculateFinancialMetrics projections
       (TimelineReport.Financials.capex
          (TimelineReport.BusinessCaseData.financials data)))
  = Math_round (TimelineReport.FinancialMetrics.npv v).
Proof.
  intros H. apply timeline_metrics_returns in H as (_ & Hn & _).
  rewrite npv_discounted. apply Math_round_comp. rewrite Hn. reflexivity.
Qed.

Lemma npv_agrees_up_to_rounding_witness :
  exists v : TimelineReport.FinancialMetrics.t,
    TimelineReport.calculateFinancialMetrics Sample.timelineData
      (TimelineReport.generateFinancialProjections Sample.timelineData)
    = inr v
    /\ GenerateReport.FinancialMetrics.npv
         (GenerateReport.calculateFinancialMetrics
            (TimelineReport.generateFinancialProjections Sample.timelineData)
            5000)
       = Math_round (TimelineReport.FinancialMetrics.npv v).
Proof.
  eexists. split; [reflexivity|].
  apply (npv_agrees_up_to_rounding Sample.timelineData). reflexivity.
Defined.

End FurtherTimeline.

(** ** The payback period of the timeline variant, in doubles

    The variant stores its operating expenditure unrounded, so its cash
    flows are not whole numbers and the balance the loop accumulates is the
    rounded one: the loop is followed here in doubles. *)

Section DoubleTimeline.

Import PrimFloat.

Variable Math_pow : Binary64.number -> Binary64.number -> Binary64.number.

Lemma double_payback_loop_spec (cashFlows : list Binary64.number) (i : Z)
    (c default : Binary64.number) :
  (Binary64.TimelineReport.payback_loop cashFlows i c default = default
   /\ forall k : nat,
        (1 <= k <= List.length cashFlows)%nat ->
        (0 <=? fold_left add (firstn k cashFlows) c)%float = false)
  \/ (exists k : nat,
        (1 <= k <= List.length cashFlows)%nat
        /\ Binary64.TimelineReport.payback_loop cashFlows i c default
           = Binary64.of_Z (i + Z.of_nat k)
        /\ (0 <=? fold_left add (firstn k cashFlows) c)%float = true
        /\ forall j : nat,
             (1 <= j < k)%nat ->
             (0 <=? fold_left add (firstn j cashFlows) c)%float = false).
Proof.
  revert i c. induction cashFlows as [|cf rest IH]; intros i c.
  - left. split; [reflexivity|]. intros k Hk. cbn in Hk. lia.
  - cbn [Binary64.TimelineReport.payback_loop]. cbn zeta.
    destruct (0 <=? c + cf)%float eqn:E.
    + right. exists 1%nat. cbn [List.length].
      split; [lia|]. split; [reflexivity|]. split.
      * cbn [firstn fold_left]. exact E.
      * intros j Hj. lia.
    + destruct (IH (i + 1)%Z (c + cf)%float)
        as [[E0 Hall] | (k & Hk & Ek & Hpos & Hmin)].
      * left. split; [exact E0|]. intros [|[|k]] Hk; cbn [List.length] in Hk.
        -- lia.
        -- cbn [firstn fold_left]. exact E.
        -- cbn [firstn fold_left]. apply (Hall (S k)). lia.
      * right. exists (S k). cbn [List.length]. split; [lia|].
        split; [rewrite Ek; f_equal; lia|]. split.
        -- cbn [firstn fold_left]. exact Hpos.
        -- intros [|[|j]] Hj.
           ++ lia.
           ++ cbn [firstn fold_left]. exact E.
           ++ cbn [firstn fold_left]. apply (Hmin (S j)). lia.
Qed.

Lemma double_timeline_payback
    (data : Binary64.TimelineReport.BusinessCaseData.t)
    (projections : list Binary64.Projection.t)
    (v : Binary64.TimelineReport.FinancialMetrics.t) :
  Binary64.TimelineReport.calculateFinancialMetrics Math_pow data projections
  = inr v ->
  projections <> []
  /\ Binary64.TimelineReport.FinancialMetrics.paybackPeriod v
     = Binary64.TimelineReport.payback_loop
         (map (fun p => Binary64.Projection.revenue p
                        - Binary64.Projection.opex p)%float projections)
         0
         (- Binary64.TimelineReport.Financials.capex
              (Binary64.TimelineReport.BusinessCaseData.financials data))%float
         (Binary64.TimelineReport.Financials.projectTimelineYears
            (Binary64.TimelineReport.BusinessCaseData.financials data)).
Proof.
  unfold Binary64.TimelineReport.calculateFinancialMetrics.
  destruct projections as [|p rest]; [discriminate|].
  cbn [bind ret Monad_either]. intros H. injection H as <-.
  split; [discriminate | reflexivity].
Qed.

(** X4. The [paybackPeriod] of the timeline variant is the submitted
    [projectTimelineYears] when the balance fails the test [>= 0] through
    all projected years; otherwise it is the number of the first year at
    which the balance passes it.  The balance is the one the loop
    accumulates in doubles: the investment paid, then the cash flows
    [revenue - opex] added one after the other, each difference and sum
    rounded to the nearest double. *)
Theorem timeline_payback_first_nonnegative_year
    (data : Binary64.TimelineReport.BusinessCaseData.t)
    (projections : list Binary64.Projection.t)
    (v : Binary64.TimelineReport.FinancialMetrics.t) :
  Binary64.TimelineReport.calculateFinancialMetrics Math_pow data projections
  = inr v ->
  let financials := Binary64.TimelineReport.BusinessCaseData.financials data in
  let paybackPeriod :=
    Binary64.TimelineReport.FinancialMetrics.paybackPeriod v in
  let balance :=
    Binary64.Formula.balance
      (Binary64.TimelineReport.Financials.capex financials)
      (map (fun p => Binary64.Projection.revenue p
                     - Binary64.Projection.opex p)%float projections) in
  (paybackPeriod
   = Binary64.TimelineReport.Financials.projectTimelineYears financials
   /\ forall k : nat,
        (1 <= k <= List.length projections)%nat ->
        (0 <=? balance k)%float = false)
  \/ (exists k : nat,
        (1 <= k <= List.length projections)%nat
        /\ paybackPeriod = Binary64.of_Z (Z.of_nat k)
        /\ (0 <=? balance k)%float = true
        /\ forall j : nat,
             (1 <= j < k)%nat -> (0 <=? balance j)%float = false).
Proof.
  intros H financials paybackPeriod balance.
  apply double_timeline_payback in H as [_ H].
  unfold paybackPeriod, balance, Binary64.Formula.balance. rewrite H.
  match goal with
  | |- context [Binary64.TimelineReport.payback_loop ?cfs 0%Z ?c ?d] =>
      destruct (double_payback_loop_spec cfs 0%Z c d)
        as [[E Hall] | (k & Hk & E & Hpos & Hmin)];
      rewrite length_map in *
  end.
  - left. split; assumption.
  - right. exists k. repeat split; try assumption; lia.
Qed.

End DoubleTimeline.

Section DoubleTimelineSample.

Import PrimFloat.

(** With 3890 invested, a revenue of 2400 and costs growing from 1000 by
    10% a year, the first three cash flows are 1400, 1300 and 1190 on
    paper and bring the balance to 0; the costs stored for the second and
    third year are a little above 1100 and 1210, the balance of the code
    stays below 0 in year 3, and the payback period is 4. *)
Lemma timeline_payback_first_nonnegative_year_witness :
  exists (v : Binary64.TimelineReport.FinancialMetrics.t) (k : nat),
    Binary64.TimelineReport.calculateFinancialMetrics
      Binary64.Sample.Math_pow Binary64.Sample.timelineData
      Binary64.Sample.timelineProjections = inr v
    /\ k = 4%nat
    /\ Binary64.TimelineReport.FinancialMetrics.paybackPeriod v
       = Binary64.of_Z (Z.of_nat k)
    /\ forall j : nat,
         (1 <= j < k)%nat ->
         (0 <=? Binary64.Formula.balance 3890
                  (map (fun p => Binary64.Projection.revenue p
                                 - Binary64.Projection.opex p)%float
                       Binary64.Sample.timelineProjections) j)%float
         = false.
Proof.
  destruct (Binary64.TimelineReport.calculateFinancialMetrics
              Binary64.Sample.Math_pow Binary64.Sample.timelineData
              Binary64.Sample.timelineProjections) as [e | v] eqn:E;
    [vm_compute in E; discriminate E|].
  destruct (timeline_payback_first_nonnegative_year
              Binary64.Sample.Math_pow Binary64.Sample.timelineData
              Binary64.Sample.timelineProjections v E)
    as [[_ Hall] | (k & Hk & Hp & Hpos & Hmin)].
  - specialize (Hall 4%nat ltac:(cbn; lia)).
    vm_compute in Hall. discriminate Hall.
  - exists v, k. split; [reflexivity|].
    assert (Ek : k = 4%nat).
    { change (List.length Binary64.Sample.timelineProjections)
        with 5%nat in Hk.
      assert (C : (k = 1 \/ k = 2 \/ k = 3 \/ k = 4 \/ k = 5)%nat) by lia.
      destruct C as [-> | [-> | [-> | [-> | ->]]]];
        try reflexivity;
        try (vm_compute in Hpos; discriminate Hpos).
      specialize (Hmin 4%nat ltac:(lia)).
      vm_compute in Hmin. discriminate Hmin. }
    split; [exact Ek|]. split; [exact Hp | exact Hmin].
Defined.

End DoubleTimelineSample.



Section FurtherTimelineProjections.

Import TimelineReport.


Lemma floor_from_one (y : Q) : 1 <= y -> (1 <= Qfloor y)%Z.
Proof.
  intros H. change 1%Z with (Qfloor 1). apply Qfloor_resp_le. exact H.
Qed.

Lemma timeline_projection_length (data : BusinessCaseData.t) :
  List.length (generateFinancialProjections data)
  = Z.to_nat (Qfloor (Financials.projectTimelineYears
                        (BusinessCaseData.financials data))).
Proof.
  unfold generateFinancialProjections.
  rewrite length_map, for_range_length. reflexivity.
Qed.

Lemma timeline_metrics_defined (data : BusinessCaseData.t)
    (projections : list Projection.t) :
  (1 <= List.length projections)%nat ->
  exists v, calculateFinancialMetrics data projections = inr v.
Proof.
  intros L. destruct projections as [|p rest]; [cbn in L; lia|].
  unfold calculateFinancialMetrics. cbn [bind ret Monad_either].
  eexists. reflexivity.
Qed.



(** X6. A submission the timeline form accepts has a timeline between 1 and
    10 years, so the variant projects between 1 and 10 years for it and its
    metrics never throw. *)
Theorem timeline_form_keeps_metrics_defined (llmProvider : string)
    (data : BusinessCaseData.t) :
  TimelineForm.businessCaseSchema llmProvider data = true ->
  (1 <= List.length (generateFinancialProjections data) <= 10)%nat
  /\ exists v,
       calculateFinancialMetrics data (generateFinancialProjections data)
       = inr v.
Proof.
  unfold TimelineForm.businessCaseSchema, TimelineForm.financials_schema,
    BusinessCaseForm.number_min, BusinessCaseForm.number_max.
  rewrite !andb_true_iff, !Qle_bool_iff.
  intros ((_ & ((Hmin & Hmax) & _) & _) & _).
  pose proof (timeline_projection_length data) as Hlen.
  pose proof (floor_from_one _ Hmin) as H1.
  assert (L : (1 <= List.length (generateFinancialProjections data))%nat)
    by (rewrite Hlen; lia).
  split; [|apply timeline_metrics_defined; exact L]. split; [exact L|].
  rewrite Hlen.
  assert (Qfloor (Financials.projectTimelineYears
                    (BusinessCaseData.financials data)) <= 10)%Z.
  { change 10%Z with (Qfloor 10). apply Qfloor_resp_le. exact Hmax. }
  lia.
Qed.

Lemma timeline_form_keeps_metrics_defined_witness :
  (1 <= List.length (generateFinancialProjections Sample.timelineData) <= 10)%nat
  /\ exists v,
       calculateFinancialMetrics Sample.timelineData
         (generateFinancialProjections Sample.timelineData) = inr v.
Proof.
  apply (timeline_form_keeps_metrics_defined "gpt4" Sample.timelineData).
  reflexivity.
Defined.

End FurtherTimelineProjections.


(** ** The generate-report route, further *)

Section FurtherRoute.

Import GenerateReport.

Variable JSON_parse : string -> throws json.
Variable Number_toString : number -> string.
Variable ZodError_message : json -> string.
Variable TypeError_message : option json -> string.

Local Abbreviation post :=
  (POST JSON_parse Number_toString ZodError_message TypeError_message).

(** X10. When the request body is not JSON or is rejected by the schema,
    the answer is the error response for that exception whatever the model
    would have replied: the three completions are not consulted. *)
Theorem invalid_request_ignores_model (req : Request.t) (e : exn) :
  Request.json req = inl e
  \/ (exists body,
        Request.json req = inr body
        /\ businessCaseSchema_parse ZodError_message body = inl e) ->
  forall llm : Completions.t,
    post req llm = POST_catch e
    /\ Response.status (post req llm) = 500%Z.
Proof.
  intros H llm.
  assert (E : post req llm = POST_catch e).
  { unfold POST, POST_try. destruct H as [H | (body & Hb & Hp)].
    - rewrite H. reflexivity.
    - rewrite Hb. run_monad. rewrite Hp. reflexivity. }
  split; [exact E | rewrite E; reflexivity].
Qed.

End FurtherRoute.

Lemma invalid_request_ignores_model_witness :
  let llm :=
    {| GenerateReport.Completions.market := Sample.emptyObjectReply;
       GenerateReport.Completions.risk := Sample.emptyObjectReply;
       GenerateReport.Completions.report := Sample.emptyObjectReply |} in
  GenerateReport.POST Sample.JSON_parse Sample.Number_toString
    Sample.ZodError_message Sample.TypeError_message
    Sample.emptyReportRequest llm
  = GenerateReport.POST_catch (JsError "Required")
  /\ Response.status
       (GenerateReport.POST Sample.JSON_parse Sample.Number_toString
          Sample.ZodError_message Sample.TypeError_message
          Sample.emptyReportRequest llm) = 500%Z.
Proof.
  apply (invalid_request_ignores_model Sample.JSON_parse
           Sample.Number_toString Sample.ZodError_message
           Sample.TypeError_message).
  right. exists (JObject []). split; reflexivity.
Defined.


Section FurtherReport.

Import GenerateReport.

Variable JSON_parse : string -> throws json.
Variable Number_toString : number -> string.
Variable ZodError_message : json -> string.
Variable TypeError_message : option json -> string.

Lemma set_metrics_result (metrics : json) (m m' : list (string * json)) :
  set_metrics TypeError_message metrics m = inr m' ->
  (exists items, member "financialAnalysis" m' = Some (JArray items))
  \/ (exists analysis,
        member "financialAnalysis" m' = Some (JObject analysis)
        /\ member "metrics" analysis = Some metrics).
Proof.
  unfold set_metrics.
  destruct (member "financialAnalysis" m) as [[| | | |items|fa]|] eqn:E; cbn;
    intros H; try discriminate; injection H as <-.
  - left. exists items. exact E.
  - right. exists (set_member "metrics" metrics fa).
    split; apply member_set_same.
Qed.

(** X11. In a successful answer the projections, the financial metrics, the
    market analysis and the risk assessment are the ones the route computed
    or obtained itself, whatever the final reply of the model put under
    those names (the metrics are stored when [financialAnalysis] is an
    object; an array is left as it is). *)
Theorem report_carries_own_numbers (req : Request.t) (llm : Completions.t)
    (r : Response.t) :
  POST_try JSON_parse Number_toString ZodError_message TypeError_message
           req llm = inr r ->
  exists (body : json) (d : BusinessCaseData.t) (marketAnalysis : json)
         (riskAnalysis : RiskAnalysis.t) (m : list (string * json)),
    Request.json req = inr body
    /\ businessCaseSchema_parse ZodError_message body = inr d
    /\ generateMarketAnalysis JSON_parse (Completions.market llm)
       = inr marketAnalysis
    /\ generateRiskAnalysis JSON_parse Number_toString TypeError_message
         (Completions.risk llm) = inr riskAnalysis
    /\ Response.status r = 200%Z
    /\ Response.content r = Json (JObject m)
    /\ member "financialProjections" m
       = Some (JArray (map json_of_projection
                         (calculateFinancialProjections (projection_input d))))
    /\ member "marketAnalysis" m = Some marketAnalysis
    /\ member "riskAssessment" m = Some (json_of_risk riskAnalysis)
    /\ ((exists items, member "financialAnalysis" m = Some (JArray items))
        \/ (exists analysis,
              member "financialAnalysis" m = Some (JObject analysis)
              /\ member "metrics" analysis
                 = Some (json_of_metrics
                           (calculateFinancialMetrics
                              (calculateFinancialProjections
                                 (projection_input d))
                              (Financials.capex
                                 (BusinessCaseData.financials d)))))).
Proof.
  unfold POST_try.
  destruct (Request.json req) as [e | body] eqn:Eb; run_monad;
    [discriminate|].
  destruct (businessCaseSchema_parse ZodError_message body) as [e | d] eqn:Ed;
    run_monad; [discriminate|].
  destruct (generateMarketAnalysis JSON_parse (Completions.market llm))
    as [e | marketAnalysis] eqn:Em; run_monad; [discriminate|].
  destruct (generateRiskAnalysis JSON_parse Number_toString TypeError_message
              (Completions.risk llm)) as [e | riskAnalysis] eqn:Er; run_monad;
    [discriminate|].
  destruct (Completions.report llm) as [e | [result|]]; run_monad;
    [discriminate | | discriminate].
  destruct (String.eqb result ""); run_monad; [discriminate|].
  unfold assemble_report.
  destruct (cleanJsonResponse result) as [e | cleaned]; run_monad;
    [discriminate|].
  destruct (JSON_parse cleaned) as [e | [| | | | |m]]; run_monad;
    try discriminate.
  destruct (negb (truthy (member "executiveSummary" m))
            || negb (Array_isArray (member "financialProjections" m)));
    run_monad; [discriminate|].
  destruct (set_metrics TypeError_message _ _) as [e | m'] eqn:Es; run_monad;
    [discriminate|].
  intros H. injection H as <-.
  exists body, d, marketAnalysis, riskAnalysis. eexists.
  split; [reflexivity|]. split; [exact Ed|]. split; [reflexivity|].
  split; [reflexivity|]. split; [reflexivity|]. split; [reflexivity|].
  assert (Hk : "financialProjections" <> "financialAnalysis") by discriminate.
  split.
  { rewrite !member_set_other by discriminate.
    rewrite (set_metrics_keeps _ _ _ _ _ Hk Es). apply member_set_same. }
  split.
  { rewrite member_set_other by discriminate. apply member_set_same. }
  split; [apply member_set_same|].
  rewrite !member_set_other by discriminate.
  exact (set_metrics_result _ _ _ Es).
Qed.

(** X12. When the risk reply is not empty, an object can be cut out of it
    and parses to an object whose five required members are strings,
    [generateRiskAnalysis] returns those five strings with every escaped
    line break (a backslash and an [n]) turned into a line feed, not a
    fallback record. *)
Theorem risk_analysis_uses_reply (content cleaned : string)
    (m : list (string * json)) (s1 s2 s3 s4 s5 : string) :
  content <> "" ->
  cleanJsonResponse content = inr cleaned ->
  JSON_parse cleaned = inr (JObject m) ->
  member "risks" m = Some (JString s1) ->
  member "impactAssessment" m = Some (JString s2) ->
  member "mitigationStrategies" m = Some (JString s3) ->
  member "contingencyPlans" m = Some (JString s4) ->
  member "riskMonitoringApproach" m = Some (JString s5) ->
  generateRiskAnalysis JSON_parse Number_toString TypeError_message
    (inr (Some content))
  = inr {| RiskAnalysis.risks := replace_escaped_newlines s1;
           RiskAnalysis.impactAssessment := replace_escaped_newlines s2;
           RiskAnalysis.mitigationStrategies := replace_escaped_newlines s3;
           RiskAnalysis.contingencyPlans := replace_escaped_newlines s4;
           RiskAnalysis.riskMonitoringApproach :=
             replace_escaped_newlines s5 |}.
Proof.
  intros Hne Hc Hp H1 H2 H3 H4 H5.
  unfold generateRiskAnalysis. run_monad.
  rewrite (eqb_empty_false _ Hne), Hc. run_monad. rewrite Hp. run_monad.
  unfold requiredFields, check_required, field_in. run_monad.
  rewrite H1, H2, H3, H4, H5. run_monad.
  unfold risk_text. rewrite H1, H2, H3, H4, H5. reflexivity.
Qed.

(** A [null] or empty market reply is read as the empty object: the
    market analysis is then whatever [JSON.parse] makes of the two braces,
    and no error is raised by the cleaning. *)
Lemma empty_market_reply_is_empty_object :
  generateMarketAnalysis JSON_parse (inr None) = JSON_parse "{}"
  /\ generateMarketAnalysis JSON_parse (inr (Some "")) = JSON_parse "{}".
Proof. split; reflexivity. Qed.

End FurtherReport.

Lemma risk_analysis_uses_reply_witness :
  let reply_object :=
    [("risks", JString "a"); ("impactAssessment", JString "b");
     ("mitigationStrategies", JString "c"); ("contingencyPlans", JString "d");
     ("riskMonitoringApproach", JString "e")] in
  GenerateReport.generateRiskAnalysis
    (fun _ => inr (JObject reply_object)) Sample.Number_toString
    Sample.TypeError_message (inr (Some "Here: {x} ok"))
  = inr {| GenerateReport.RiskAnalysis.risks := "a";
           GenerateReport.RiskAnalysis.impactAssessment := "b";
           GenerateReport.RiskAnalysis.mitigationStrategies := "c";
           GenerateReport.RiskAnalysis.contingencyPlans := "d";
           GenerateReport.RiskAnalysis.riskMonitoringApproach := "e" |}.
Proof.
  intros reply_object.
  apply (risk_analysis_uses_reply (fun _ => inr (JObject reply_object))
           Sample.Number_toString Sample.TypeError_message
           "Here: {x} ok" "{x}" reply_object "a" "b" "c" "d" "e");
    try reflexivity.
  discriminate.
Defined.


Lemma report_carries_own_numbers_witness :
  let parse := fun _ : string =>
    inr (JObject [("executiveSummary", JString "Summary");
                  ("financialProjections", JArray []);
                  ("financialAnalysis", JObject [])]) : sum exn json in
  exists (r : Response.t) (m analysis : list (string * json)),
    GenerateReport.POST_try parse Sample.Number_toString
      Sample.ZodError_message Sample.TypeError_message Sample.request
      {| GenerateReport.Completions.market := Sample.emptyObjectReply;
         GenerateReport.Completions.risk := Sample.emptyObjectReply;
         GenerateReport.Completions.report := Sample.emptyObjectReply |}
    = inr r
    /\ Response.content r = Json (JObject m)
    /\ member "financialProjections" m
       = Some (JArray (map GenerateReport.json_of_projection
                         (GenerateReport.calculateFinancialProjections
                            (GenerateReport.projection_input
                               Sample.validatedData))))
    /\ member "financialAnalysis" m = Some (JObject analysis)
    /\ member "metrics" analysis
       = Some (GenerateReport.json_of_metrics
                 (GenerateReport.calculateFinancialMetrics
                    (GenerateReport.calculateFinancialProjections
                       (GenerateReport.projection_input Sample.validatedData))
                    5000)).
Proof.
  intros parse.
  destruct (GenerateReport.POST_try parse Sample.Number_toString
      Sample.ZodError_message Sample.TypeError_message Sample.request
      {| GenerateReport.Completions.market := Sample.emptyObjectReply;
         GenerateReport.Completions.risk := Sample.emptyObjectReply;
         GenerateReport.Completions.report := Sample.emptyObjectReply |})
    as [e | r] eqn:E; [discriminate E|].
  destruct (report_carries_own_numbers parse Sample.Number_toString
              Sample.ZodError_message Sample.TypeError_message _ _ r E)
    as (body & d & ma & ra & m & Hb & Hd & _ & _ & _ & Hc & Hp & _ & _ & Hm).
  injection Hb as <-. injection Hd as <-.
  destruct Hm as [(items & Hi) | (analysis & Ha & Hm)].
  - exfalso. injection E as <-. injection Hc as <-. discriminate Hi.
  - exists r, m, analysis. split; [reflexivity|]. split; [exact Hc|].
    split; [exact Hp|]. split; [exact Ha | exact Hm].
Defined.

(** ** Cleaning texts *)

Section FurtherCleaning.

Import Formula.

Lemma replace_head (a : ascii) (rest : string) :
  replace_escaped_newlines (String a rest)
  = match rest with
    | String b rest' =>
        if Ascii.eqb a backslash && Ascii.eqb b "n"%char
        then String line_feed (replace_escaped_newlines rest')
        else String a (replace_escaped_newlines rest)
    | EmptyString => String a EmptyString
    end.
Proof. destruct rest; reflexivity. Qed.

Lemma has_escaped_cons (a b : ascii) (rest : string) :
  Reference.has_escaped_newline (String a (String b rest))
  = (Ascii.eqb a backslash && Ascii.eqb b "n"%char)
    || Reference.has_escaped_newline (String b rest).
Proof. reflexivity. Qed.

(** The first character of a cleaned text is a line feed or the first
    character of the text. *)
Lemma replace_first (a : ascii) (rest : string) :
  exists c tail,
    replace_escaped_newlines (String a rest) = String c tail
    /\ (c = line_feed \/ c = a).
Proof.
  rewrite replace_head. destruct rest as [|b rest'].
  - exists a, EmptyString. split; [reflexivity | right; reflexivity].
  - destruct (Ascii.eqb a backslash && Ascii.eqb b "n"%char).
    + eexists _, _. split; [reflexivity | left; reflexivity].
    + eexists _, _. split; [reflexivity | right; reflexivity].
Qed.

Lemma replace_escaped_newlines_facts (n : nat) :
  forall s : string,
    (String.length s <= n)%nat ->
    Reference.has_escaped_newline (replace_escaped_newlines s) = false
    /\ (String.length (replace_escaped_newlines s) <= String.length s)%nat.
Proof.
  induction n as [|n IH]; intros s Hs.
  - destruct s; [split; [reflexivity | cbn; lia] | cbn in Hs; lia].
  - destruct s as [|a rest]; [split; [reflexivity | cbn; lia]|].
    rewrite replace_head. destruct rest as [|b rest'].
    + split; [reflexivity | cbn; lia].
    + cbn [String.length] in Hs.
      destruct (Ascii.eqb a backslash && Ascii.eqb b "n"%char) eqn:E.
      * destruct (IH rest' ltac:(lia)) as [Hno Hlen]. split.
        -- destruct (replace_escaped_newlines rest') as [|c tail] eqn:Er;
             [reflexivity|].
           rewrite has_escaped_cons, Hno, orb_false_r. reflexivity.
        -- cbn [String.length]. lia.
      * destruct (IH (String b rest') ltac:(cbn; lia)) as [Hno Hlen]. split.
        -- destruct (replace_first b rest') as (c & tail & Er & Hc).
           rewrite Er in *. rewrite has_escaped_cons, Hno, orb_false_r.
           destruct (Ascii.eqb_spec a backslash) as [->|]; [|reflexivity].
           cbn [andb] in E |- *. destruct Hc as [-> | ->];
             [reflexivity | exact E].
        -- cbn [String.length] in *. lia.
Qed.

Lemma replace_without_escape (n : nat) :
  forall s : string,
    (String.length s <= n)%nat ->
    Reference.has_escaped_newline s = false ->
    replace_escaped_newlines s = s.
Proof.
  induction n as [|n IH]; intros s Hs Hno.
  - destruct s; [reflexivity | cbn in Hs; lia].
  - destruct s as [|a rest]; [reflexivity|].
    rewrite replace_head. destruct rest as [|b rest']; [reflexivity|].
    rewrite has_escaped_cons in Hno.
    apply orb_false_iff in Hno as [E Hrest]. rewrite E.
    f_equal. apply IH; [cbn in *; lia | exact Hrest].
Qed.

(** X13. The replacement [s.replace(/\\n/g, '\n')] leaves no backslash
    directly followed by [n], never lengthens the text, and is idempotent:
    cleaning a cleaned risk text changes nothing. *)
Theorem replace_escaped_newlines_clean (s : string) :
  Reference.has_escaped_newline (replace_escaped_newlines s) = false
  /\ (String.length (replace_escaped_newlines s) <= String.length s)%nat
  /\ replace_escaped_newlines (replace_escaped_newlines s)
     = replace_escaped_newlines s.
Proof.
  destruct (replace_escaped_newlines_facts (String.length s) s (le_n _))
    as [Hno Hlen].
  split; [exact Hno|]. split; [exact Hlen|].
  apply (replace_without_escape _ _ (le_n _) Hno).
Qed.

End FurtherCleaning.


Section FurtherCleanJson.

Import Formula.

Lemma get_none_iff (s : string) (k : nat) :
  String.get k s = None <-> (String.length s <= k)%nat.
Proof.
  revert k. induction s as [|a rest IH]; intros k; cbn.
  - split; [lia | reflexivity].
  - destruct k as [|k]; [split; [discriminate | lia]|].
    rewrite IH. lia.
Qed.

Lemma substring_full (s : string) : substring 0 (String.length s) s = s.
Proof. induction s as [|a rest IH]; cbn; [reflexivity | rewrite IH; reflexivity]. Qed.

(** X14. A non-empty result of [cleanJsonResponse] starts with an opening
    brace, ends with a closing brace, and is a fixed point: cleaning it again
    returns it unchanged. *)
Theorem cleanJsonResponse_idempotent (text r : string) :
  GenerateReport.cleanJsonResponse text = inr r ->
  r <> "" ->
  String.get 0 r = Some "{"%char
  /\ String.get (String.length r - 1) r = Some "}"%char
  /\ GenerateReport.cleanJsonResponse r = inr r.
Proof.
  intros Hr Hne.
  destruct (cleanJsonResponse_cases text)
    as [[E _] | (i & j & Hi & Hj & E)]; [congruence|].
  rewrite E in Hr. injection Hr as Hr.
  pose proof (get_lt _ _ _ (proj1 Hi)) as Li.
  pose proof (get_lt _ _ _ (proj1 Hj)) as Lj.
  replace (Z.of_nat j + 1)%Z with (Z.of_nat (j + 1)) in Hr by lia.
  rewrite slice_inside in Hr by lia.
  assert (Hij : (i <= j)%nat).
  { destruct (Nat.le_gt_cases i j) as [L | L]; [exact L|].
    elim Hne. rewrite <- Hr. replace (j + 1 - i)%nat with 0%nat by lia.
    apply substring_empty. }
  assert (Hget : forall k, (k < j + 1 - i)%nat ->
                           String.get k r = String.get (i + k) text).
  { intros k L. rewrite <- Hr, substring_correct1 by exact L. f_equal. lia. }
  assert (Hout : forall k, (j + 1 - i <= k)%nat -> String.get k r = None).
  { intros k L. rewrite <- Hr. apply substring_correct2. exact L. }
  assert (Hlen : String.length r = (j + 1 - i)%nat).
  { apply Nat.le_antisymm.
    - apply get_none_iff. apply Hout. lia.
    - assert (G : String.get (j - i) r = Some "}"%char).
      { rewrite Hget by lia. replace (i + (j - i))%nat with j by lia.
        apply Hj. }
      apply get_lt in G. lia. }
  assert (H0 : String.get 0 r = Some "{"%char).
  { rewrite Hget by lia. rewrite Nat.add_0_r. apply Hi. }
  assert (Hlast : String.get (String.length r - 1) r = Some "}"%char).
  { rewrite Hlen, Hget by lia.
    replace (i + (j + 1 - i - 1))%nat with j by lia. apply Hj. }
  split; [exact H0|]. split; [exact Hlast|].
  assert (F : first_at r "{" 0) by (split; [exact H0 | intros k Hk; lia]).
  assert (L : last_at r "}" (String.length r - 1)).
  { split; [exact Hlast|]. intros k Hk.
    rewrite (proj2 (get_none_iff r k)) by lia. discriminate. }
  destruct (cleanJsonResponse_cases r)
    as [[_ [Hm | Hm]] | (i' & j' & Hi' & Hj' & E')].
  - elim Hm. exists 0%nat. exact H0.
  - elim Hm. exists (String.length r - 1)%nat. exact Hlast.
  - rewrite E'. f_equal.
    rewrite <- (first_at_unique _ _ _ _ F Hi').
    rewrite <- (last_at_unique _ _ _ _ L Hj').
    replace (Z.of_nat (String.length r - 1) + 1)%Z
      with (Z.of_nat (String.length r)) by lia.
    rewrite (slice_inside r 0 (String.length r)) by lia.
    rewrite Nat.sub_0_r. apply substring_full.
Qed.

Lemma cleanJsonResponse_idempotent_witness :
  String.get 0 "{x}" = Some "{"%char
  /\ String.get (String.length "{x}" - 1) "{x}" = Some "}"%char
  /\ GenerateReport.cleanJsonResponse "{x}" = inr "{x}".
Proof.
  apply (cleanJsonResponse_idempotent "Here: {x} ok" "{x}").
  - reflexivity.
  - discriminate.
Defined.

End FurtherCleanJson.


(** ** The charts of the preview *)

Section FurtherCharts.

Import PreviewCharts.

Lemma cash_until_prefix (done rest : list Projection.t) (k : nat) :
  (k <= List.length done)%nat ->
  Reference.cash_until (done ++ rest) k = Reference.cash_until done k.
Proof.
  intros Hk. unfold Reference.cash_until.
  rewrite firstn_app. replace (k - List.length done)%nat with 0%nat by lia.
  cbn [firstn]. rewrite app_nil_r. reflexivity.
Qed.

Lemma cash_until_snoc (done : list Projection.t) (p : Projection.t) :
  Reference.cash_until (done ++ [p]) (S (List.length done))
  = Reference.cash_until done (List.length done)
    + (Projection.revenue p - Projection.opex p).
Proof.
  unfold Reference.cash_until.
  rewrite firstn_app, firstn_all2 by lia.
  replace (S (List.length done) - List.length done)%nat with 1%nat by lia.
  rewrite firstn_all. cbn [firstn]. rewrite fold_left_app. reflexivity.
Qed.

Lemma cumulative_snoc (done : list Projection.t) (p : Projection.t) :
  cumulativeCashFlow (done ++ [p])
  = cumulative_step (cumulativeCashFlow done) p.
Proof. unfold cumulativeCashFlow. rewrite fold_left_app. reflexivity. Qed.

Lemma cumulative_points (projections : list Projection.t) :
  List.length (cumulativeCashFlow projections) = List.length projections
  /\ forall (k : nat) (p : Projection.t),
       nth_error projections k = Some p ->
       nth_error (cumulativeCashFlow projections) k
       = Some {| CashFlowPoint.year := Projection.year p;
                 CashFlowPoint.cumulative :=
                   Reference.cash_until projections (S k) |}.
Proof.
  induction projections as [|p done IH] using rev_ind.
  - split; [reflexivity|]. intros [|k] q H; discriminate H.
  - destruct IH as [Hlen Hnth]. rewrite cumulative_snoc.
    unfold cumulative_step. rewrite !length_app. cbn [List.length].
    split; [lia|].
    intros k q Hq.
    destruct (Nat.lt_ge_cases k (List.length done)) as [L | L].
    + rewrite nth_error_app1 in Hq by exact L.
      rewrite nth_error_app1 by lia.
      rewrite (Hnth k q Hq), cash_until_prefix by lia. reflexivity.
    + rewrite nth_error_app2 in Hq by exact L.
      assert (k = List.length done).
      { destruct (k - List.length done)%nat as [|[|n]] eqn:E; cbn in Hq;
          [lia | discriminate | discriminate]. }
      subst k. rewrite Nat.sub_diag in Hq. injection Hq as <-.
      rewrite nth_error_app2 by lia.
      replace (List.length done - List.length (cumulativeCashFlow done))%nat
        with 0%nat by lia.
      cbn [nth_error]. f_equal. f_equal.
      rewrite cash_until_snoc.
      destruct done as [|d0 done'] using rev_ind; [reflexivity|].
      rewrite Hlen, !length_app. cbn [List.length].
      replace (List.length done' + 1)%nat with (S (List.length done')) by lia.
      cbn [Nat.ltb Nat.leb].
      assert (Hd : nth_error (done' ++ [d0]) (List.length done') = Some d0).
      { rewrite nth_error_app2 by lia. rewrite Nat.sub_diag. reflexivity. }
      replace (S (List.length done') - 1)%nat with (List.length done') by lia.
      rewrite (Hnth _ _ Hd). cbn [CashFlowPoint.cumulative].
      reflexivity.
Qed.

(** X16. The break-even chart has one point per projected year, in order,
    with the year of the projection and, as [cumulative], the sum of the
    cash flows (revenue minus opex) of the years up to and including it; the
    investment is not subtracted. *)
Theorem cumulative_cash_flow_running_sum (projections : list Projection.t) :
  List.length (cumulativeCashFlow projections) = List.length projections
  /\ map CashFlowPoint.year (cumulativeCashFlow projections)
     = map Projection.year projections
  /\ forall (k : nat) (p : Projection.t),
       nth_error projections k = Some p ->
       nth_error (cumulativeCashFlow projections) k
       = Some {| CashFlowPoint.year := Projection.year p;
                 CashFlowPoint.cumulative :=
                   Reference.cash_until projections (S k) |}.
Proof.
  destruct (cumulative_points projections) as [Hlen Hnth].
  split; [exact Hlen|]. split; [|exact Hnth].
  apply nth_error_ext. intros k. rewrite !nth_error_map.
  destruct (nth_error projections k) as [p|] eqn:Ep.
  - rewrite (Hnth k p Ep). reflexivity.
  - apply nth_error_None in Ep.
    rewrite (proj2 (nth_error_None (cumulativeCashFlow projections) k))
      by lia.
    reflexivity.
Qed.

Lemma cumulative_cash_flow_running_sum_witness :
  nth_error
    (cumulativeCashFlow
       (GenerateReport.calculateFinancialProjections
          (GenerateReport.projection_input Sample.validatedData))) 1
  = Some {| CashFlowPoint.year := 2;
            CashFlowPoint.cumulative :=
              Reference.cash_until
                (GenerateReport.calculateFinancialProjections
                   (GenerateReport.projection_input Sample.validatedData))
                2 |}.
Proof.
  apply (proj2 (proj2 (cumulative_cash_flow_running_sum
                  (GenerateReport.calculateFinancialProjections
                     (GenerateReport.projection_input Sample.validatedData))))
           1%nat
           (Formula.projected
              (GenerateReport.projection_input Sample.validatedData) 1)).
  reflexivity.
Defined.

End FurtherCharts.


Section FurtherWaterfall.

Import PreviewCharts.

Variable Number_toString : number -> string.

Lemma bars_match_previous_end (done : list Projection.t) (bars : list Bar.t) :
  Reference.bars_match done bars ->
  (if (0 <? Z.of_nat (List.length done))%Z
   then match nth_error bars (Z.to_nat (Z.of_nat (List.length done) - 1)) with
        | Some bar => inr (Bar.end_ bar)
        | None =>
            inl (JsError
                   "Cannot read properties of undefined (reading 'end')")
        end
   else inr 0)
  = (inr (Reference.cash_until done (List.length done)) : sum exn number).
Proof.
  intros [Hlen Hbars].
  destruct done as [|d done'] using rev_ind; [reflexivity|].
  rewrite length_app. cbn [List.length].
  destruct (Z.ltb_spec 0 (Z.of_nat (List.length done' + 1))) as [_|]; [|lia].
  replace (Z.to_nat (Z.of_nat (List.length done' + 1) - 1))
    with (List.length done') by lia.
  assert (Hd : nth_error (done' ++ [d]) (List.length done') = Some d).
  { rewrite nth_error_app2 by lia. rewrite Nat.sub_diag. reflexivity. }
  destruct (Hbars _ _ Hd) as (bar & Hb & _ & He & _).
  rewrite Hb, He.
  replace (List.length done' + 1)%nat with (S (List.length done')) by lia.
  reflexivity.
Qed.

Lemma waterfall_from (rest : list Projection.t) :
  forall (done : list Projection.t) (bars : list Bar.t),
    Reference.bars_match done bars ->
    exists bars' : list Bar.t,
      reduce_from (waterfall_step Number_toString)
                  (Z.of_nat (List.length done)) rest (inr bars)
      = inr bars'
      /\ Reference.bars_match (done ++ rest) bars'.
Proof.
  induction rest as [|p rest IH]; intros done bars Hm.
  - exists bars. rewrite app_nil_r. split; [reflexivity | exact Hm].
  - cbn [reduce_from]. unfold waterfall_step at 2.
    cbn [bind ret Monad_either throw raise Exception_either].
    rewrite (bars_match_previous_end done bars Hm).
    set (bar := {| Bar.name := _ |}).
    assert (Hm' : Reference.bars_match (done ++ [p]) (bars ++ [bar])).
    { destruct Hm as [Hlen Hbars]. split.
      - rewrite !length_app. cbn. lia.
      - intros k q Hq.
        destruct (Nat.lt_ge_cases k (List.length done)) as [L | L].
        + rewrite nth_error_app1 in Hq by exact L.
          destruct (Hbars k q Hq) as (b & Hb & Hs & He & Hp & Hf).
          exists b. rewrite nth_error_app1 by lia.
          rewrite !cash_until_prefix by lia.
          repeat split; assumption || apply Hf.
        + rewrite nth_error_app2 in Hq by exact L.
          assert (k = List.length done).
          { destruct (k - List.length done)%nat as [|[|n]] eqn:E; cbn in Hq;
              [lia | discriminate | discriminate]. }
          subst k. rewrite Nat.sub_diag in Hq. injection Hq as <-.
          exists bar. rewrite nth_error_app2 by lia.
          rewrite Hlen, Nat.sub_diag. split; [reflexivity|].
          rewrite cash_until_prefix by lia. rewrite cash_until_snoc.
          split; [reflexivity|]. split; [reflexivity|].
          split; [reflexivity|].
          subst bar. cbn [Bar.fill].
          destruct (Qle_bool 0 (Projection.revenue p - Projection.opex p))
            eqn:E.
          * split; [intros _; apply Qle_bool_iff; exact E | reflexivity].
          * split; [discriminate|].
            intros H. apply Qle_bool_iff in H. congruence. }
    replace (Z.of_nat (List.length done) + 1)%Z
      with (Z.of_nat (List.length (done ++ [p])))
      by (rewrite length_app; cbn; lia).
    destruct (IH (done ++ [p]) (bars ++ [bar]) Hm') as (bars' & E & Hm'').
    exists bars'. rewrite <- app_assoc in Hm''. split; [exact E | exact Hm''].
Qed.

(** X17. The waterfall chart never fails on a missing previous bar: it has
    one bar per projected year; the bar of a year starts at the sum of the
    cash flows of the years before it and ends at the sum including it (the
    end of one bar is the start of the next, and the end is the [cumulative]
    value of the break-even chart for that year); it is green exactly when
    the year's profit is not negative. *)
Theorem waterfall_bars_chain (data : list Projection.t) :
  exists bars : list Bar.t,
    waterfallData Number_toString data = inr bars
    /\ List.length bars = List.length data
    /\ map Bar.end_ bars
       = map CashFlowPoint.cumulative (cumulativeCashFlow data)
    /\ forall (k : nat) (p : Projection.t),
         nth_error data k = Some p ->
         exists bar : Bar.t,
           nth_error bars k = Some bar
           /\ Bar.start bar = Reference.cash_until data k
           /\ Bar.end_ bar = Reference.cash_until data (S k)
           /\ Bar.profit bar = Projection.revenue p - Projection.opex p
           /\ (Bar.fill bar = "#82ca9d" <->
               0 <= Projection.revenue p - Projection.opex p).
Proof.
  destruct (waterfall_from data [] []) as (bars & E & Hlen & Hbars).
  { split; [reflexivity|]. intros [|k] p H; discriminate H. }
  exists bars. split; [exact E|]. cbn [app] in *. split; [exact Hlen|].
  split; [|exact Hbars].
  destruct (cumulative_points data) as [Hclen Hc].
  apply nth_error_ext. intros k. rewrite !nth_error_map.
  destruct (nth_error data k) as [p|] eqn:Ep.
  - destruct (Hbars k p Ep) as (bar & Hb & _ & He & _).
    rewrite Hb, (Hc k p Ep). cbn. rewrite He. reflexivity.
  - apply nth_error_None in Ep.
    rewrite (proj2 (nth_error_None bars k)) by lia.
    rewrite (proj2 (nth_error_None (cumulativeCashFlow data) k)) by lia.
    reflexivity.
Qed.

End FurtherWaterfall.

Lemma waterfall_bars_chain_witness :
  exists bar : PreviewCharts.Bar.t,
    PreviewCharts.Bar.start bar
    = Reference.cash_until
        (GenerateReport.calculateFinancialProjections
           (GenerateReport.projection_input Sample.validatedData)) 1
    /\ PreviewCharts.Bar.end_ bar
       = Reference.cash_until
           (GenerateReport.calculateFinancialProjections
              (GenerateReport.projection_input Sample.validatedData)) 2.
Proof.
  destruct (waterfall_bars_chain Sample.Number_toString
              (GenerateReport.calculateFinancialProjections
                 (GenerateReport.projection_input Sample.validatedData)))
    as (bars & _ & _ & _ & Hbars).
  destruct (Hbars 1%nat
              (Formula.projected
                 (GenerateReport.projection_input Sample.validatedData) 1)
              eq_refl) as (bar & _ & Hs & He & _).
  exists bar. split; [exact Hs | exact He].
Defined.


(** ** Number formats of the preview *)

Section FurtherFormats.

Import PreviewCharts.

Variable Number_toString : number -> string.

Lemma Qle_bool_false_iff (a b : Q) : Qle_bool a b = false <-> b < a.
Proof.
  split.
  - intros E. apply Qnot_le_lt. intros L. apply Qle_bool_iff in L. congruence.
  - intros L. destruct (Qle_bool a b) eqn:E; [|reflexivity].
    apply Qle_bool_iff in E. elim (Qlt_not_le _ _ L E).
Qed.

Lemma Qfloor_between (x : Q) (z : Z) :
  inject_Z z <= x -> x < inject_Z (z + 1) -> Qfloor x = z.
Proof.
  intros Hl Hu.
  assert (L1 : (z <= Qfloor x)%Z).
  { rewrite <- (Qfloor_Z z). apply Qfloor_resp_le. exact Hl. }
  assert (L2 : (Qfloor x < z + 1)%Z).
  { rewrite Zlt_Qlt. apply Qle_lt_trans with x; [apply Qfloor_le | exact Hu]. }
  lia.
Qed.

(** X18. [formatCurrency] is [formatNumber] with a dollar sign in front, for
    every value; and because the thousands are rounded to one decimal after
    the unit is chosen, every value from 999,950 up to (not including) one
    million is printed as 1000.0K, not as 1.0M. *)
Theorem format_thousands_round_up (value : number) :
  formatCurrency Number_toString value
  = ("$" ++ formatNumber Number_toString value)%string
  /\ (999950 <= value -> value < 1000000 ->
      formatNumber Number_toString value = "1000.0K"
      /\ formatCurrency Number_toString value = "$1000.0K").
Proof.
  assert (Hd : formatCurrency Number_toString value
               = ("$" ++ formatNumber Number_toString value)%string).
  { unfold formatCurrency, formatNumber.
    destruct (Qle_bool 1000000 value); [reflexivity|].
    destruct (Qle_bool 1000 value); reflexivity. }
  split; [exact Hd|]. intros Hl Hu.
  assert (Hn : formatNumber Number_toString value = "1000.0K").
  { unfold formatNumber.
    rewrite (proj2 (Qle_bool_false_iff 1000000 value) Hu).
    assert (H1000 : Qle_bool 1000 value = true).
    { apply Qle_bool_iff. apply Qle_trans with 999950; [discriminate | exact Hl]. }
    rewrite H1000. unfold toFixed1.
    assert (Hpos : 0 < value / 1000).
    { apply Qlt_shift_div_l; [reflexivity|]. rewrite Qmult_0_l.
      apply Qlt_le_trans with 999950; [reflexivity | exact Hl]. }
    assert (Hneg : Qlt_bool (value / 1000) 0 = false).
    { unfold Qlt_bool. apply negb_false_iff. apply Qle_bool_iff.
      apply Qlt_le_weak. exact Hpos. }
    rewrite Hneg.
    assert (Hbig : Qle_bool (inject_Z (10 ^ 21)) (value / 1000) = false).
    { apply Qle_bool_false_iff. apply Qlt_shift_div_r; [reflexivity|].
      apply Qlt_trans with 1000000; [exact Hu | reflexivity]. }
    rewrite Hbig.
    assert (Hf : Qfloor (value / 1000 * 10 + (1 # 2)) = 10000%Z).
    { apply Qfloor_between.
      - setoid_replace (value / 1000 * 10 + (1 # 2))
          with (value * (1 # 100) + (1 # 2)) by field.
        setoid_replace (inject_Z 10000) with (10000 # 1) by reflexivity. lra.
      - setoid_replace (value / 1000 * 10 + (1 # 2))
          with (value * (1 # 100) + (1 # 2)) by field.
        setoid_replace (inject_Z (10000 + 1)) with (10001 # 1) by reflexivity.
        lra. }
    rewrite Hf. reflexivity. }
  split; [exact Hn | rewrite Hd, Hn; reflexivity].
Qed.

End FurtherFormats.

Lemma format_thousands_round_up_witness :
  PreviewCharts.formatNumber Sample.Number_toString 999960 = "1000.0K"
  /\ PreviewCharts.formatCurrency Sample.Number_toString 999960 = "$1000.0K".
Proof.
  apply (proj2 (format_thousands_round_up Sample.Number_toString 999960));
    [discriminate | reflexivity].
Defined.


(** ** The form: progress, currency input, earlier schema *)

Section FurtherForm.

Import GenerateReport FormState.

Variable is_blank : string -> bool.

Lemma formProgress_counts (formData : Values.t) :
  formProgress is_blank formData
  = inject_Z (10 * Z.of_nat
                     (List.length
                        (filter (isFieldFilled is_blank)
                                (counted_fields formData)))).
Proof.
  unfold formProgress, count_fields, counted_fields.
  cbn [fold_left filter].
  repeat match goal with
         | |- context [isFieldFilled is_blank ?v] =>
             destruct (isFieldFilled is_blank v)
         end; reflexivity.
Qed.

(** X19. The form progress is ten times the number of filled fields among
    the ten counted, so it lies between 0 and 100 and is 100 exactly when
    all ten are filled; since a number counts as filled only when it is not
    0, a form whose growth rate is 0 (which the schema accepts) never shows
    more than 90. *)
Theorem form_progress_counts_nonzero (formData : Values.t) :
  let progress := formProgress is_blank formData in
  0 <= progress <= 100
  /\ (progress == 100 <->
      forall v, In v (counted_fields formData) ->
                isFieldFilled is_blank v = true)
  /\ (Customers.growthRate (Values.customers formData) == 0 ->
      progress <= 90).
Proof.
  cbn zeta. rewrite formProgress_counts.
  set (fields := counted_fields formData).
  set (filled := filter (isFieldFilled is_blank) fields).
  assert (Hlen : List.length fields = 10%nat) by reflexivity.
  assert (Hle : (List.length filled <= 10)%nat).
  { rewrite <- Hlen. apply filter_length_le. }
  split; [|split].
  - split.
    + change 0 with (inject_Z 0). rewrite <- Zle_Qle. lia.
    + change 100 with (inject_Z 100). rewrite <- Zle_Qle. lia.
  - change 100 with (inject_Z 100). rewrite inject_Z_injective. split.
    + intros H v Hv.
      assert (E : List.length filled = List.length fields) by lia.
      destruct (isFieldFilled is_blank v) eqn:Ev; [reflexivity|].
      exfalso.
      assert (Hall : forallb (isFieldFilled is_blank) fields = true).
      { apply filter_length_forallb. exact E. }
      rewrite forallb_forall in Hall. rewrite (Hall v Hv) in Ev. discriminate.
    + intros H.
      assert (E : filled = fields).
      { apply forallb_filter_id. apply forallb_forall. exact H. }
      rewrite E, Hlen. reflexivity.
  - intros Hg.
    assert (Hz : isFieldFilled is_blank
                   (Num (Customers.growthRate (Values.customers formData)))
                 = false).
    { cbn. apply negb_false_iff. apply Qeq_bool_iff. exact Hg. }
    assert (L : (List.length filled <= 9)%nat).
    { destruct (Nat.le_gt_cases (List.length filled) 9) as [L | L];
        [exact L|]. exfalso.
      assert (E : List.length filled = List.length fields) by lia.
      assert (Hall : forallb (isFieldFilled is_blank) fields = true).
      { apply filter_length_forallb. exact E. }
      rewrite forallb_forall in Hall.
      rewrite Hall in Hz; [discriminate|].
      unfold fields, counted_fields. cbn. tauto. }
    change 90 with (inject_Z 90). rewrite <- Zle_Qle. lia.
Qed.

End FurtherForm.

Lemma form_progress_counts_nonzero_witness :
  FormState.formProgress (fun s => String.eqb s "")
    (FormState.values_of
       {| GenerateReport.BusinessCaseData.projectName := "Fibre rollout";
          GenerateReport.BusinessCaseData.company := "Acme";
          GenerateReport.BusinessCaseData.country := "Egypt";
          GenerateReport.BusinessCaseData.industry := "Telecom";
          GenerateReport.BusinessCaseData.financials :=
            {| GenerateReport.Financials.totalCost := 25000;
               GenerateReport.Financials.capex := 5000;
               GenerateReport.Financials.opex := 1000 |};
          GenerateReport.BusinessCaseData.customers :=
            {| GenerateReport.Customers.initialCount := 100;
               GenerateReport.Customers.growthRate := 0;
               GenerateReport.Customers.arpu := 5 |} |})
  <= 90.
Proof.
  apply (proj2 (proj2 (form_progress_counts_nonzero
                         (fun s => String.eqb s "") _))).
  reflexivity.
Defined.


Section FurtherInput.

Import GenerateReport FormState.






(** X21. The earlier schema of the form accepts a record exactly when its
    numbers are all non-negative and its strings have the minimum lengths
    (3 for the project name, 2 for company, country and industry); every
    record the later schema accepts is accepted by the earlier one. *)
Theorem earlier_schema_nonneg_and_lengths (d : BusinessCaseData.t) :
  (EarlierForm.businessCaseSchema d = true
   <-> Formula.nonneg_and_min_lengths d = true)
  /\ (BusinessCaseForm.businessCaseSchema d = true ->
      EarlierForm.businessCaseSchema d = true).
Proof.
  unfold EarlierForm.businessCaseSchema, Formula.nonneg_and_min_lengths,
    BusinessCaseForm.businessCaseSchema, BusinessCaseForm.financials_schema,
    BusinessCaseForm.customers_schema, BusinessCaseForm.string_min,
    BusinessCaseForm.number_min, BusinessCaseForm.number_max.
  cbn zeta. rewrite !andb_true_iff, !Nat.leb_le, !Qle_bool_iff.
  split; [tauto|].
  intros H.
  assert (0 <= Customers.initialCount (BusinessCaseData.customers d))
    by (apply Qle_trans with 1; [discriminate | tauto]).
  tauto.
Qed.

Lemma earlier_schema_nonneg_and_lengths_witness :
  EarlierForm.businessCaseSchema Sample.validatedData = true.
Proof.
  apply (proj2 (earlier_schema_nonneg_and_lengths Sample.validatedData)).
  reflexivity.
Defined.

End FurtherInput.


Section FurtherRisk.

Import GenerateReport.

Variable JSON_parse : string -> throws json.
Variable Number_toString : number -> string.
Variable ZodError_message : json -> string.
Variable TypeError_message : option json -> string.

Lemma assemble_report_any_risk (result : string)
    (projections : list Projection.t) (financialMetrics : FinancialMetrics.t)
    (marketAnalysis : json) (riskAnalysis riskAnalysis' : RiskAnalysis.t)
    (r : Response.t) :
  assemble_report JSON_parse TypeError_message result projections
    financialMetrics marketAnalysis riskAnalysis = inr r ->
  exists r' : Response.t,
    assemble_report JSON_parse TypeError_message result projections
      financialMetrics marketAnalysis riskAnalysis' = inr r'
    /\ Response.status r' = 200%Z.
Proof.
  unfold assemble_report.
  destruct (cleanJsonResponse result) as [e | cleaned]; run_monad;
    [discriminate|].
  destruct (JSON_parse cleaned) as [e | [| | | | |m]]; run_monad;
    try discriminate.
  destruct (negb (truthy (member "executiveSummary" m))
            || negb (Array_isArray (member "financialProjections" m)));
    run_monad; [discriminate|].
  destruct (set_metrics TypeError_message _ _) as [e | m']; run_monad;
    [discriminate|].
  intros _. eexists. split; reflexivity.
Qed.

(** X15. The risk completion can never fail the request: if the route
    answers with a report for some replies of the model, it answers with a
    report (status 200) for the same market and final replies and any other
    outcome of the risk completion, be it a rejection, an empty reply or
    prose. *)
Theorem risk_completion_cannot_fail_request (req : Request.t)
    (llm : Completions.t) (r : Response.t) (riskResponse : completion) :
  POST_try JSON_parse Number_toString ZodError_message TypeError_message
           req llm = inr r ->
  exists r' : Response.t,
    POST_try JSON_parse Number_toString ZodError_message TypeError_message
             req
             {| Completions.market := Completions.market llm;
                Completions.risk := riskResponse;
                Completions.report := Completions.report llm |}
    = inr r'
    /\ Response.status r' = 200%Z.
Proof.
  unfold POST_try. cbn [Completions.market Completions.risk Completions.report].
  destruct (Request.json req) as [e | body]; run_monad; [discriminate|].
  destruct (businessCaseSchema_parse ZodError_message body) as [e | d];
    run_monad; [discriminate|].
  destruct (generateMarketAnalysis JSON_parse (Completions.market llm))
    as [e | marketAnalysis]; run_monad; [discriminate|].
  destruct (generateRiskAnalysis JSON_parse Number_toString TypeError_message
              (Completions.risk llm)) as [e | riskAnalysis]; run_monad;
    [discriminate|].
  assert (Hr : exists ra,
             generateRiskAnalysis JSON_parse Number_toString TypeError_message
               riskResponse = inr ra).
  { destruct (risk_never_throws JSON_parse Number_toString TypeError_message
                riskResponse) as [E | [E | (c & cl & pa & _ & _ & _ & E)]];
      eexists; exact E. }
  destruct Hr as (ra & ->). run_monad.
  destruct (Completions.report llm) as [e | [result|]]; run_monad;
    [discriminate | | discriminate].
  destruct (String.eqb result ""); run_monad; [discriminate|].
  destruct (assemble_report JSON_parse TypeError_message result _ _ _
              riskAnalysis) as [e | r0] eqn:Ea; run_monad; [discriminate|].
  intros _.
  destruct (assemble_report_any_risk _ _ _ _ _ ra _ Ea) as (r' & E' & Hs).
  exists r'. rewrite E'. split; [reflexivity | exact Hs].
Qed.

End FurtherRisk.

Lemma risk_completion_cannot_fail_request_witness :
  let parse := fun _ : string =>
    inr (JObject [("executiveSummary", JString "Summary");
                  ("financialProjections", JArray []);
                  ("financialAnalysis", JObject [])]) : sum exn json in
  exists r' : Response.t,
    GenerateReport.POST_try parse Sample.Number_toString
      Sample.ZodError_message Sample.TypeError_message Sample.request
      {| GenerateReport.Completions.market := Sample.emptyObjectReply;
         GenerateReport.Completions.risk := inl NonError;
         GenerateReport.Completions.report := Sample.emptyObjectReply |}
    = inr r'
    /\ Response.status r' = 200%Z.
Proof.
  intros parse.
  destruct (GenerateReport.POST_try parse Sample.Number_toString
      Sample.ZodError_message Sample.TypeError_message Sample.request
      {| GenerateReport.Completions.market := Sample.emptyObjectReply;
         GenerateReport.Completions.risk := Sample.emptyObjectReply;
         GenerateReport.Completions.report := Sample.emptyObjectReply |})
    as [e | r] eqn:E; [discriminate E|].
  exact (risk_completion_cannot_fail_request parse Sample.Number_toString
           Sample.ZodError_message Sample.TypeError_message _ _ r
           (inl NonError) E).
Defined.
